(** * online_store / products: the checkout views over the payment gateway

    Shallow embedding of [products/models.py], [products/views.py] and
    [products/urls.py].

    - the four Django models are records, their tables finite maps from
      primary key to row;
    - keyword arguments handed to the gateway are Python values ([pyval]),
      dictionaries being association lists in insertion order;
    - a Python [str] is its UTF-8 encoding, one [ascii] per byte: a
      character is a byte that is not a continuation byte, with the
      continuation bytes that follow it, and lengths and slices count
      characters;
    - a view is a computation in a state-and-exception monad: the state is
      the database together with the trace of what the views did so far
      (gateway calls with their replies, and rows saved), an exception
      leaves the state as it was when it was raised (autocommit, no
      transaction around a request);
    - the gateway is a section variable: any function from the history of
      calls and the present call to a reply (an object with an [id], or an
      exception with its [str]). *)

From Stdlib Require Import ZArith String Ascii List DecimalString.
From Stdlib Require Import DecimalPos DecimalZ Sorted.
From stdpp Require Import gmap strings.

Local Open Scope Z_scope.
Set Warnings "-register-all".

(** ** Python values *)

Inductive pyval : Type :=
| PNone
| PBool (b : bool)
| PInt (z : Z)
| PStr (s : string)
| PList (l : list pyval)
| PDict (d : list (string * pyval)).

Definition kwargs : Type := list (string * pyval).

(** [d[k] = v] on a dictionary kept in insertion order. *)
Fixpoint dict_set (k : string) (v : pyval) (d : list (string * pyval))
  : list (string * pyval) :=
  match d with
  | [] => [(k, v)]
  | (k', v') :: r =>
      if String.eqb k k' then (k, v) :: r else (k', v') :: dict_set k v r
  end.

Fixpoint dict_get (k : string) (d : list (string * pyval)) : option pyval :=
  match d with
  | [] => None
  | (k', v') :: r => if String.eqb k k' then Some v' else dict_get k r
  end.

Definition keys (d : list (string * pyval)) : list string := map fst d.

(** Every dictionary key that occurs anywhere inside a value. *)
Fixpoint all_keys (v : pyval) : list string :=
  match v with
  | PList l => flat_map all_keys l
  | PDict d => flat_map (fun kv => fst kv :: all_keys (snd kv)) d
  | _ => []
  end.

(** ** Strings *)

(** The bytes [10xxxxxx], which continue a character of UTF-8. *)
Definition is_continuation (c : ascii) : bool :=
  ((128 <=? nat_of_ascii c) && (nat_of_ascii c <? 192))%nat.

(** [len(s)]: the number of characters. *)
Fixpoint str_len (s : string) : nat :=
  match s with
  | EmptyString => O
  | String c r => if is_continuation c then str_len r else S (str_len r)
  end.

(** [s[:n]] for [n >= 0]: the first [n] characters, each with all its
    bytes. *)
Fixpoint str_take (n : nat) (s : string) : string :=
  match s with
  | EmptyString => EmptyString
  | String c r =>
      if is_continuation c then String c (str_take n r)
      else
        match n with
        | O => EmptyString
        | S n' => String c (str_take n' r)
        end
  end.

(** [s[:-1]]. *)
Definition str_drop_last (s : string) : string :=
  str_take (str_len s - 1) s.

(** [str(z)] for an integer. *)
Definition str_of_int (z : Z) : string :=
  NilZero.string_of_int (Z.to_int z).

(** Truth value of a nullable CharField and of a nullable integer field. *)
Definition truthy_str (o : option string) : bool :=
  match o with
  | Some (String _ _) => true
  | _ => false
  end.

Definition truthy_int (o : option Z) : bool :=
  match o with
  | Some z => negb (z =? 0)
  | None => false
  end.

Definition opt_int (o : option Z) : pyval :=
  match o with Some z => PInt z | None => PNone end.

Definition opt_str (o : option string) : pyval :=
  match o with Some s => PStr s | None => PNone end.

(** ** models.py *)

Module Item.
Record t : Type := Build
  { name : string; description : string; price : Z; currency : string }.
End Item.

Module Discount.
Record t : Type := Build
  { name : string;
    amount_off : option Z;
    percent_off : option Z;
    stripe_coupon_id : option string }.

Definition set_stripe_coupon_id (d : t) (v : string) : t :=
  {| name := name d; amount_off := amount_off d;
     percent_off := percent_off d; stripe_coupon_id := Some v |}.
End Discount.

Module Tax.
Record t : Type := Build
  { name : string;
    percentage : Z;
    inclusive : bool;
    stripe_tax_rate_id : option string }.

Definition set_stripe_tax_rate_id (x : t) (v : string) : t :=
  {| name := name x; percentage := percentage x;
     inclusive := inclusive x; stripe_tax_rate_id := Some v |}.
End Tax.

Module Order.
(** [items] is the many-to-many relation: the primary keys of the items
    of the order, one per row of the join table; [discount] and [tax]
    are the nullable foreign keys. *)
Record t : Type := Build
  { items : list Z;
    discount : option Z;
    tax : option Z;
    paid : bool }.
End Order.

Record DB : Type := MkDB
  { Items : gmap Z Item.t;
    Discounts : gmap Z Discount.t;
    Taxes : gmap Z Tax.t;
    Orders : gmap Z Order.t }.

(** [order.items.all()]: the join of the relation with the Item table, each
    row with its primary key. *)
Definition items_all (d : DB) (o : Order.t) : list (Z * Item.t) :=
  omap (fun i => match Items d !! i with
                 | Some it => Some (i, it)
                 | None => None
                 end) (Order.items o).

(** [QuerySet.first()] on a queryset without ordering: the row with the
    least primary key, [None] when there is no row. *)
Fixpoint first (l : list (Z * Item.t)) : option (Z * Item.t) :=
  match l with
  | [] => None
  | x :: r =>
      match first r with
      | None => Some x
      | Some y => if fst x <=? fst y then Some x else Some y
      end
  end.

(** The effect of [save()] on the tables: the row of that primary key is
    overwritten with the instance's fields. *)
Definition save_discount (pk : Z) (x : Discount.t) (d : DB) : DB :=
  {| Items := Items d; Discounts := <[pk := x]> (Discounts d);
     Taxes := Taxes d; Orders := Orders d |}.

Definition save_tax (pk : Z) (x : Tax.t) (d : DB) : DB :=
  {| Items := Items d; Discounts := Discounts d;
     Taxes := <[pk := x]> (Taxes d); Orders := Orders d |}.

(** ** The gateway *)

Inductive Call : Type :=
| Coupon_create (kw : kwargs)
| TaxRate_create (kw : kwargs)
| Session_create (kw : kwargs).

(** What a call gives back: an object, of which the views read [id] only,
    or an exception, of which they read [str(e)] only. *)
Inductive reply : Type :=
| Returned (id : string)
| Raised (msg : string).

Definition Gateway : Type := list (Call * reply) -> Call -> reply.

(** What a view does that can be seen from outside: a call to the gateway
    with the reply it got, and a row written by [save()]. *)
Inductive Event : Type :=
| Called (c : Call) (r : reply)
| Saved_discount (pk : Z) (row : Discount.t)
| Saved_tax (pk : Z) (row : Tax.t).

Definition calls_of (t : list Event) : list (Call * reply) :=
  omap (fun e => match e with
                 | Called c r => Some (c, r)
                 | _ => None
                 end) t.

(** ** Exceptions, responses, the monad of a view *)

Inductive exn : Type :=
| Http404 (msg : string)
| DoesNotExist (msg : string)
| AttributeError (msg : string)
| GatewayError (msg : string).

(** [str(e)]. *)
Definition str (e : exn) : string :=
  match e with
  | Http404 m | DoesNotExist m | AttributeError m | GatewayError m => m
  end.

Inductive HttpResponse : Type :=
| JsonResponse (body : list (string * pyval))
| HttpResponseBadRequest (content : string).

Definition status_code (r : HttpResponse) : Z :=
  match r with
  | JsonResponse _ => 200
  | HttpResponseBadRequest _ => 400
  end.

Record HttpRequest : Type := MkRequest
  { (** scheme and host of the request, as in "http://shop.test" *)
    current_scheme_host : string }.

(** [request.build_absolute_uri(location)] for a location that starts with
    a single slash. *)
Definition build_absolute_uri (request : HttpRequest) (location : string)
  : string :=
  current_scheme_host request +:+ location.

Record World : Type := MkWorld
  { db : DB;
    trace : list Event }.

(** The events of a run from [w] to [w']. *)
Definition new_events (w w' : World) : list Event :=
  drop (length (trace w)) (trace w').

Inductive result (A : Type) : Type :=
| Ok (a : A)
| Raise (e : exn).
Arguments Ok {A} a.
Arguments Raise {A} e.

Definition M (A : Type) : Type := World -> result A * World.

Definition ret {A} (a : A) : M A := fun w => (Ok a, w).

Definition bind {A B} (m : M A) (k : A -> M B) : M B :=
  fun w =>
    match m w with
    | (Ok a, w') => k a w'
    | (Raise e, w') => (Raise e, w')
    end.

Definition raise {A} (e : exn) : M A := fun w => (Raise e, w).

(** [try: m  except Exception as e: h e]; every [exn] is an [Exception]. *)
Definition try_except {A} (m : M A) (h : exn -> M A) : M A :=
  fun w =>
    match m w with
    | (Ok a, w') => (Ok a, w')
    | (Raise e, w') => h e w'
    end.

Definition get_db : M DB := fun w => (Ok (db w), w).

(** [discount.save()] and [tax.save()] on an instance of primary key
    [pk]. *)
Definition Discount_save (pk : Z) (row : Discount.t) : M unit :=
  fun w =>
    (Ok tt, {| db := save_discount pk row (db w);
               trace := trace w ++ [Saved_discount pk row] |}).

Definition Tax_save (pk : Z) (row : Tax.t) : M unit :=
  fun w =>
    (Ok tt, {| db := save_tax pk row (db w);
               trace := trace w ++ [Saved_tax pk row] |}).

Declare Scope view_scope.
Delimit Scope view_scope with view.
Notation "'do' x <- m ; k" := (bind m (fun x => k))
  (at level 10, x name, m at level 100, k at level 200) : view_scope.
Notation "m1 ;; m2" := (bind m1 (fun _ => m2))
  (at level 100, m2 at level 200, right associativity) : view_scope.
Local Open Scope view_scope.

(** [get_object_or_404(Model, id=pk)]. *)
Definition get_object_or_404 {A} (table : DB -> gmap Z A) (model : string)
    (pk : Z) : M A :=
  do d <- get_db;
  match table d !! pk with
  | Some x => ret x
  | None => raise (Http404 ("No " +:+ model +:+ " matches the given query."))
  end.

(** Reading a nullable foreign key ([order.discount], [order.tax]): [None]
    for a null key, the row for a key that is there. *)
Definition related {A} (table : DB -> gmap Z A) (model : string)
    (fk : option Z) : M (option (Z * A)) :=
  match fk with
  | None => ret None
  | Some pk =>
      do d <- get_db;
      match table d !! pk with
      | Some x => ret (Some (pk, x))
      | None =>
          raise (DoesNotExist (model +:+ " matching query does not exist."))
      end
  end.

Section Views.

Variable stripe : Gateway.

(** One call to the gateway: it is traced with its reply; an exception
    of the gateway is raised in the view. *)
Definition call (c : Call) : M string :=
  fun w =>
    let r := stripe (calls_of (trace w)) c in
    let w' := {| db := db w; trace := trace w ++ [Called c r] |} in
    match r with
    | Returned id => (Ok id, w')
    | Raised msg => (Raise (GatewayError msg), w')
    end.

(** The dictionary of one line item of [buy_view]. *)
Definition buy_view_line_item (item : Item.t) : pyval :=
  PDict
    [ ("price_data",
        PDict
          [ ("currency", PStr (Item.currency item));
            ("product_data",
              PDict
                [ ("name", PStr (Item.name item));
                  ("description",
                    PStr (str_take 200 (Item.description item))) ]);
            ("unit_amount", PInt (Item.price item * 100)) ]);
      ("quantity", PInt 1) ]%string.

Definition session_kwargs (line_items : list pyval)
    (success_url cancel_url : string) : kwargs :=
  [ ("payment_method_types", PList [PStr "card"]);
    ("line_items", PList line_items);
    ("mode", PStr "payment");
    ("success_url", PStr success_url);
    ("cancel_url", PStr cancel_url) ]%string.

(** The [try] block around [stripe.checkout.Session.create] and the
    [return] after it, shared by the two views. *)
Definition create_session (kw : kwargs) : M HttpResponse :=
  do r <- try_except
            (do session <- call (Session_create kw); ret (inr session))
            (fun e =>
               ret (inl (HttpResponseBadRequest
                           ("Stripe error: " +:+ str e))));
  match r with
  | inl response => ret response
  | inr session => ret (JsonResponse [("session_id"%string, PStr session)])
  end.

Definition buy_view (request : HttpRequest) (item_id : Z)
  : M HttpResponse :=
  do item <- get_object_or_404 Items "Item" item_id;
  let origin := str_drop_last (build_absolute_uri request "/") in
  let success_url :=
    origin +:+ "/success?session_id={CHECKOUT_SESSION_ID}" in
  let cancel_url := origin +:+ "/item/" +:+ str_of_int item_id +:+ "/" in
  create_session
    (session_kwargs [buy_view_line_item item] success_url cancel_url).

(** The block of [buy_order_view] under "Проверка скидки": it gives the
    in-memory discount of the order (with its primary key), after the
    coupon was created and saved where the discount had none. *)
Definition check_discount (order : Order.t)
  : M (option (Z * Discount.t)) :=
  do od <- related Discounts "Discount" (Order.discount order);
  match od with
  | Some (pk, discount) =>
      if negb (truthy_str (Discount.stripe_coupon_id discount)) then
        do coupon_id <-
          (if truthy_int (Discount.amount_off discount) then
             do d <- get_db;
             match first (items_all d order) with
             | Some (_, item) =>
                 call (Coupon_create
                         [ ("duration", PStr "once");
                           ("amount_off",
                             opt_int (Discount.amount_off discount));
                           ("currency", PStr (Item.currency item)) ]%string)
             | None =>
                 raise (AttributeError
                   "'NoneType' object has no attribute 'currency'")
             end
           else
             call (Coupon_create
                     [ ("duration", PStr "once");
                       ("percent_off",
                         opt_int (Discount.percent_off discount)) ]%string));
        let discount := Discount.set_stripe_coupon_id discount coupon_id in
        Discount_save pk discount;;
        ret (Some (pk, discount))
      else ret (Some (pk, discount))
  | None => ret None
  end.

(** The block under "Проверка налога". *)
Definition check_tax (order : Order.t) : M (option (Z * Tax.t)) :=
  do ot <- related Taxes "Tax" (Order.tax order);
  match ot with
  | Some (pk, tax) =>
      if negb (truthy_str (Tax.stripe_tax_rate_id tax)) then
        do tax_id <-
          call (TaxRate_create
                  [ ("display_name", PStr (Tax.name tax));
                    ("percentage", PInt (Tax.percentage tax));
                    ("inclusive", PBool (Tax.inclusive tax)) ]%string);
        let tax := Tax.set_stripe_tax_rate_id tax tax_id in
        Tax_save pk tax;;
        ret (Some (pk, tax))
      else ret (Some (pk, tax))
  | None => ret None
  end.

(** The body of the loop over [order.items.all()]: [tax] is the
    in-memory [order.tax]. *)
Definition item_data (tax : option (Z * Tax.t)) (item : Item.t) : pyval :=
  let item_data :=
    [ ("price_data",
        PDict
          [ ("currency", PStr (Item.currency item));
            ("product_data",
              PDict
                [ ("name", PStr (Item.name item));
                  ("description", PStr (Item.description item)) ]);
            ("unit_amount", PInt (Item.price item * 100)) ]);
      ("quantity", PInt 1) ]%string in
  match tax with
  | Some (_, tax) =>
      if truthy_str (Tax.stripe_tax_rate_id tax) then
        PDict (dict_set "tax_rates"
                 (PList [opt_str (Tax.stripe_tax_rate_id tax)]) item_data)
      else PDict item_data
  | None => PDict item_data
  end.

(** The block under "Создание line_items". *)
Definition build_line_items (tax : option (Z * Tax.t))
    (items : list (Z * Item.t)) : list pyval :=
  fold_left (fun line_items item => line_items ++ [item_data tax (snd item)])
    items [].

Definition buy_order_view (request : HttpRequest) (order_id : Z)
  : M HttpResponse :=
  do order <- get_object_or_404 Orders "Order" order_id;
  let origin := str_drop_last (build_absolute_uri request "/") in
  let success_url :=
    origin +:+ "/success?session_id={CHECKOUT_SESSION_ID}" in
  let cancel_url := origin +:+ "/order/" +:+ str_of_int order_id +:+ "/" in
  do discount <- check_discount order;
  do tax <- check_tax order;
  do d <- get_db;
  let line_items := build_line_items tax (items_all d order) in
  create_session (session_kwargs line_items success_url cancel_url).

End Views.

(** ** A concrete shop, for the examples *)

Module Example.

Definition mug : Item.t := Item.Build "Mug" "A mug." 10 "USD".
Definition pen : Item.t := Item.Build "Pen" "A pen." 3 "EUR".

Definition ten_percent : Discount.t :=
  Discount.Build "ten" None (Some 10) None.
Definition zero_off : Discount.t :=
  Discount.Build "zero" (Some 0) (Some 10) None.
Definition five_off : Discount.t :=
  Discount.Build "five" (Some 5) None None.
Definition vat : Tax.t := Tax.Build "VAT" 20 true None.

Definition shop : DB :=
  {| Items := {[ 1 := mug; 2 := pen ]};
     Discounts := {[ 1 := ten_percent; 2 := zero_off; 3 := five_off ]};
     Taxes := {[ 1 := vat ]};
     Orders :=
       {[ 1 := Order.Build [2; 1] (Some 1) (Some 1) false;
          2 := Order.Build [1; 2] (Some 2) None false;
          3 := Order.Build [] (Some 3) None false;
          4 := Order.Build [1; 1] (Some 1) (Some 1) true;
          5 := Order.Build [1] None (Some 1) false;
          6 := Order.Build [2; 1] (Some 3) None false ]} |}.

Definition start : World := {| db := shop; trace := [] |}.

Definition request : HttpRequest := MkRequest "http://shop.test".

(** A gateway that numbers the objects it creates: the number is that
    of the calls it got before. *)
Definition numbering : Gateway :=
  fun history c =>
    let n := str_of_int (Z.of_nat (length history)) in
    match c with
    | Coupon_create _ => Returned ("co_" +:+ n)
    | TaxRate_create _ => Returned ("txr_" +:+ n)
    | Session_create _ => Returned ("cs_" +:+ n)
    end.

(** A gateway that refuses everything. *)
Definition refusing : Gateway := fun _ _ => Raised "card declined".

(** A gateway that creates coupons and tax rates but no session. *)
Definition no_session : Gateway :=
  fun history c =>
    match c with
    | Session_create _ => Raised "card declined"
    | _ => numbering history c
    end.

(** The shop after the checkout of order 1: discount 1 and tax 1 have
    their remote ids. *)
Definition later : World :=
  snd (buy_order_view numbering request 1 start).

End Example.



(** ** models.py: the [__str__] methods *)

(** [f"{x}"] for a nullable integer field. *)
Definition format_field (o : option Z) : string :=
  match o with
  | Some z => str_of_int z
  | None => "None"
  end.

(** The dash of the labels is the one of the source, in UTF-8. *)
Definition Item__str__ (self : Item.t) : string :=
  Item.name self +:+ " — " +:+ str_of_int (Item.price self).

Definition Discount__str__ (self : Discount.t) : string :=
  if truthy_int (Discount.percent_off self) then
    Discount.name self +:+ " — "
    +:+ format_field (Discount.percent_off self) +:+ "% off"
  else if truthy_int (Discount.amount_off self) then
    Discount.name self +:+ " — "
    +:+ format_field (Discount.amount_off self) +:+ " off"
  else Discount.name self.

Definition Tax__str__ (self : Tax.t) : string :=
  Tax.name self +:+ " — " +:+ str_of_int (Tax.percentage self) +:+ "%".

(** [self.items.count()] reads the database, [id] is the primary key of
    the order. *)
Definition Order__str__ (d : DB) (id : Z) (self : Order.t) : string :=
  "Order #" +:+ str_of_int id +:+ " — "
  +:+ str_of_int (Z.of_nat (length (items_all d self)))
  +:+ " items — " +:+ (if Order.paid self then "Paid" else "Not Paid").

(** ** views.py: the two pages *)

Record Settings : Type := MkSettings
  { STRIPE_SECRET_KEY : string;
    STRIPE_PUBLISHABLE_KEY : string }.

(** What a page hands over to [render]: the name of the template and the
    context; the templates are not part of the sources. *)
Inductive context_value : Type :=
| CItem (pk : Z) (item : Item.t)
| COrder (pk : Z) (order : Order.t)
| CStr (s : string).

Record rendered : Type := render
  { template_name : string;
    context : list (string * context_value) }.

Definition item_view (settings : Settings) (request : HttpRequest)
    (item_id : Z) : M rendered :=
  do item <- get_object_or_404 Items "Item" item_id;
  let context :=
    [ ("item", CItem item_id item);
      ("stripe_publishable_key", CStr (STRIPE_PUBLISHABLE_KEY settings))
    ]%string in
  ret (render "products/item_detail.html" context).

Definition order_view (settings : Settings) (request : HttpRequest)
    (order_id : Z) : M rendered :=
  do order <- get_object_or_404 Orders "Order" order_id;
  let context :=
    [ ("order", COrder order_id order);
      ("stripe_publishable_key", CStr (STRIPE_PUBLISHABLE_KEY settings))
    ]%string in
  ret (render "products/order_detail.html" context).

(** ** urls.py *)

Module urls.

Inductive view : Type := item_view | buy_view | order_view | buy_order_view.

(** A route of [path()]: literal text and [<int:name>] converters. *)
Inductive segment : Type :=
| Lit (text : string)
| Int (name : string).

Definition is_digit (c : ascii) : bool :=
  ((48 <=? nat_of_ascii c) && (nat_of_ascii c <=? 57))%nat.

Fixpoint strip_prefix (p s : string) : option string :=
  match p, s with
  | EmptyString, _ => Some s
  | String a p', String b s' =>
      if Ascii.eqb a b then strip_prefix p' s' else None
  | String _ _, EmptyString => None
  end.

(** The longest run of digits at the head of a string, and what is left. *)
Fixpoint span_digits (s : string) : string * string :=
  match s with
  | String c r =>
      if is_digit c then
        let (digits, rest) := span_digits r in (String c digits, rest)
      else (EmptyString, s)
  | EmptyString => (EmptyString, EmptyString)
  end.

(** The match of a whole path against a route: the [int] converter takes
    [[0-9]+] and gives [int(text)].  (The digits are taken greedily, which
    is the match of the regular expression where no literal after a
    converter starts with a digit.) *)
Fixpoint match_route (route : list segment) (path : string)
  : option (list (string * Z)) :=
  match route with
  | [] => match path with EmptyString => Some [] | _ => None end
  | Lit text :: route' =>
      match strip_prefix text path with
      | Some rest => match_route route' rest
      | None => None
      end
  | Int name :: route' =>
      let (digits, rest) := span_digits path in
      match NilZero.uint_of_string digits with
      | Some d =>
          match match_route route' rest with
          | Some kw => Some ((name, Z.of_uint d) :: kw)
          | None => None
          end
      | None => None
      end
  end.

(** [urlpatterns]: route, view, name. *)
Definition urlpatterns : list (list segment * view * string) :=
  [ ([Lit "item/"; Int "item_id"; Lit "/"], item_view, "item_view");
    ([Lit "buy/"; Int "item_id"; Lit "/"], buy_view, "buy_view");
    ([Lit "order/"; Int "order_id"; Lit "/"], order_view, "order_view");
    ([Lit "buy_order/"; Int "order_id"; Lit "/"], buy_order_view,
     "buy_order_view") ]%string.

(** The first pattern that matches the path (the path of the request
    without its leading slash). *)
Fixpoint resolve (patterns : list (list segment * view * string))
    (path : string) : option (view * list (string * Z)) :=
  match patterns with
  | [] => None
  | (route, v, _) :: patterns' =>
      match match_route route path with
      | Some kw => Some (v, kw)
      | None => resolve patterns' path
      end
  end.

End urls.

(** The place of an event in a checkout. *)
Definition stage (e : Event) : nat :=
  match e with
  | Called (Coupon_create _) _ => 0
  | Saved_discount _ _ => 1
  | Called (TaxRate_create _) _ => 2
  | Saved_tax _ _ => 3
  | Called (Session_create _) _ => 4
  end.

(** A discount with both a percentage and an amount, on an order of its
    own, in the example shop. *)
Module Example_both.

Definition both_off : Discount.t :=
  Discount.Build "both" (Some 5) (Some 10) None.

(** An item whose description has 150 characters in 275 bytes. *)
Definition kniga : Item.t :=
  Item.Build "Kniga"
    ("Очень длинное описание книги, " +:+ "Очень длинное описание книги, "
     +:+ "Очень длинное описание книги, "
     +:+ "Очень длинное описание книги, "
     +:+ "Очень длинное описание книги, ")
    7 "EUR".

Definition shop : DB :=
  {| Items := <[3 := kniga]> (Items Example.shop);
     Discounts := <[4 := both_off]> (Discounts Example.shop);
     Taxes := Taxes Example.shop;
     Orders :=
       <[8 := Order.Build [1] (Some 4) None false]> (Orders Example.shop) |}.

Definition start : World := {| db := shop; trace := [] |}.

Definition settings : Settings := MkSettings "sk_test" "pk_test".

End Example_both.

(** ** Vocabulary of the properties *)

(** A nullable CharField that counts as not set: null or empty. *)
Definition unset (o : option string) : Prop := o = None \/ o = Some ""%string.

Definition is_coupon_call (e : Event) : bool :=
  match e with Called (Coupon_create _) _ => true | _ => false end.

Definition is_tax_rate_call (e : Event) : bool :=
  match e with Called (TaxRate_create _) _ => true | _ => false end.

Definition is_session_call (e : Event) : bool :=
  match e with Called (Session_create _) _ => true | _ => false end.

Definition is_coupon_created (e : Event) : bool :=
  match e with Called (Coupon_create _) (Returned _) => true | _ => false end.

Definition is_tax_rate_created (e : Event) : bool :=
  match e with Called (TaxRate_create _) (Returned _) => true | _ => false end.

Definition is_call (e : Event) : bool :=
  match e with Called _ _ => true | _ => false end.

Definition count (p : Event -> bool) (t : list Event) : nat :=
  length (filter (fun e => p e = true) t).

(** The keyword arguments of the coupon call of [check_discount] for a
    discount without coupon, [None] where the code fails before the call
    (no first item to read the currency of). *)
Definition coupon_request (d : DB) (order : Order.t) (discount : Discount.t)
  : option kwargs :=
  if truthy_int (Discount.amount_off discount) then
    match first (items_all d order) with
    | Some (_, item) =>
        Some [ ("duration", PStr "once");
               ("amount_off", opt_int (Discount.amount_off discount));
               ("currency", PStr (Item.currency item)) ]%string
    | None => None
    end
  else
    Some [ ("duration", PStr "once");
           ("percent_off", opt_int (Discount.percent_off discount)) ]%string.

Definition tax_rate_request (tax : Tax.t) : kwargs :=
  [ ("display_name", PStr (Tax.name tax));
    ("percentage", PInt (Tax.percentage tax));
    ("inclusive", PBool (Tax.inclusive tax)) ]%string.

(** The response of a view whose session call got the reply [r]. *)
Definition session_response (r : reply) : HttpResponse :=
  match r with
  | Returned id => JsonResponse [("session_id"%string, PStr id)]
  | Raised msg => HttpResponseBadRequest ("Stripe error: " +:+ msg)
  end.

Definition origin (request : HttpRequest) : string :=
  str_drop_last (build_absolute_uri request "/").

Definition success_url (request : HttpRequest) : string :=
  origin request +:+ "/success?session_id={CHECKOUT_SESSION_ID}".

(** The names of all the parameters of a session request of the views,
    nested ones included. *)
Definition session_request_keys : list string :=
  [ "payment_method_types"; "line_items"; "mode"; "success_url";
    "cancel_url"; "price_data"; "currency"; "product_data"; "name";
    "description"; "unit_amount"; "quantity"; "tax_rates" ]%string.

(** The database in which the order [order_id] has no discount. *)
Definition without_discount (order_id : Z) (d : DB) : DB :=
  {| Items := Items d; Discounts := Discounts d; Taxes := Taxes d;
     Orders :=
       alter (fun o => Order.Build (Order.items o) None (Order.tax o)
                         (Order.paid o))
         order_id (Orders d) |}.

Section Outcomes.

Variable stripe : Gateway.

(** The ways through [check_discount], one constructor per path of the
    code, with the result and the world it leaves. *)
Variant discount_outcome (order : Order.t) (w : World)
  : result (option (Z * Discount.t)) -> World -> Prop :=
| discount_absent :
    Order.discount order = None ->
    discount_outcome order w (Ok None) w
| discount_dangling pk :
    Order.discount order = Some pk ->
    Discounts (db w) !! pk = None ->
    discount_outcome order w
      (Raise (DoesNotExist
                ("Discount" +:+ " matching query does not exist."))) w
| discount_materialized pk discount :
    Order.discount order = Some pk ->
    Discounts (db w) !! pk = Some discount ->
    truthy_str (Discount.stripe_coupon_id discount) = true ->
    discount_outcome order w (Ok (Some (pk, discount))) w
| discount_no_first_item pk discount :
    Order.discount order = Some pk ->
    Discounts (db w) !! pk = Some discount ->
    truthy_str (Discount.stripe_coupon_id discount) = false ->
    coupon_request (db w) order discount = None ->
    discount_outcome order w
      (Raise (AttributeError
                "'NoneType' object has no attribute 'currency'")) w
| discount_coupon_refused pk discount kw msg :
    Order.discount order = Some pk ->
    Discounts (db w) !! pk = Some discount ->
    truthy_str (Discount.stripe_coupon_id discount) = false ->
    coupon_request (db w) order discount = Some kw ->
    stripe (calls_of (trace w)) (Coupon_create kw) = Raised msg ->
    discount_outcome order w (Raise (GatewayError msg))
      {| db := db w;
         trace := trace w ++ [Called (Coupon_create kw) (Raised msg)] |}
| discount_coupon_created pk discount kw id :
    Order.discount order = Some pk ->
    Discounts (db w) !! pk = Some discount ->
    truthy_str (Discount.stripe_coupon_id discount) = false ->
    coupon_request (db w) order discount = Some kw ->
    stripe (calls_of (trace w)) (Coupon_create kw) = Returned id ->
    discount_outcome order w
      (Ok (Some (pk, Discount.set_stripe_coupon_id discount id)))
      {| db := save_discount pk
                 (Discount.set_stripe_coupon_id discount id) (db w);
         trace := trace w
                  ++ [ Called (Coupon_create kw) (Returned id);
                       Saved_discount pk
                         (Discount.set_stripe_coupon_id discount id) ] |}.

(** The ways through [check_tax]. *)
Variant tax_outcome (order : Order.t) (w : World)
  : result (option (Z * Tax.t)) -> World -> Prop :=
| tax_absent :
    Order.tax order = None ->
    tax_outcome order w (Ok None) w
| tax_dangling pk :
    Order.tax order = Some pk ->
    Taxes (db w) !! pk = None ->
    tax_outcome order w
      (Raise (DoesNotExist ("Tax" +:+ " matching query does not exist."))) w
| tax_materialized pk tax :
    Order.tax order = Some pk ->
    Taxes (db w) !! pk = Some tax ->
    truthy_str (Tax.stripe_tax_rate_id tax) = true ->
    tax_outcome order w (Ok (Some (pk, tax))) w
| tax_rate_refused pk tax msg :
    Order.tax order = Some pk ->
    Taxes (db w) !! pk = Some tax ->
    truthy_str (Tax.stripe_tax_rate_id tax) = false ->
    stripe (calls_of (trace w)) (TaxRate_create (tax_rate_request tax))
    = Raised msg ->
    tax_outcome order w (Raise (GatewayError msg))
      {| db := db w;
         trace := trace w
                  ++ [ Called (TaxRate_create (tax_rate_request tax))
                         (Raised msg) ] |}
| tax_rate_created pk tax id :
    Order.tax order = Some pk ->
    Taxes (db w) !! pk = Some tax ->
    truthy_str (Tax.stripe_tax_rate_id tax) = false ->
    stripe (calls_of (trace w)) (TaxRate_create (tax_rate_request tax))
    = Returned id ->
    tax_outcome order w
      (Ok (Some (pk, Tax.set_stripe_tax_rate_id tax id)))
      {| db := save_tax pk (Tax.set_stripe_tax_rate_id tax id) (db w);
         trace := trace w
                  ++ [ Called (TaxRate_create (tax_rate_request tax))
                         (Returned id);
                       Saved_tax pk (Tax.set_stripe_tax_rate_id tax id) ] |}.

(** The ways through [buy_order_view]. *)
Variant order_outcome (request : HttpRequest) (order_id : Z) (w : World)
  : result HttpResponse -> World -> Prop :=
| order_not_found :
    Orders (db w) !! order_id = None ->
    order_outcome request order_id w
      (Raise (Http404 ("No " +:+ "Order" +:+ " matches the given query.")))
      w
| order_discount_raises order e w1 :
    Orders (db w) !! order_id = Some order ->
    discount_outcome order w (Raise e) w1 ->
    order_outcome request order_id w (Raise e) w1
| order_tax_raises order discount w1 e w2 :
    Orders (db w) !! order_id = Some order ->
    discount_outcome order w (Ok discount) w1 ->
    tax_outcome order w1 (Raise e) w2 ->
    order_outcome request order_id w (Raise e) w2
| order_session order discount w1 tax w2 kw r :
    Orders (db w) !! order_id = Some order ->
    discount_outcome order w (Ok discount) w1 ->
    tax_outcome order w1 (Ok tax) w2 ->
    kw = session_kwargs
           (map (fun it => item_data tax (snd it)) (items_all (db w2) order))
           (success_url request)
           (origin request +:+ "/order/" +:+ str_of_int order_id +:+ "/") ->
    r = stripe (calls_of (trace w2)) (Session_create kw) ->
    order_outcome request order_id w (Ok (session_response r))
      {| db := db w2;
         trace := trace w2 ++ [Called (Session_create kw) r] |}.

(** The ways through [buy_view]. *)
Variant item_outcome (request : HttpRequest) (item_id : Z) (w : World)
  : result HttpResponse -> World -> Prop :=
| item_not_found :
    Items (db w) !! item_id = None ->
    item_outcome request item_id w
      (Raise (Http404 ("No " +:+ "Item" +:+ " matches the given query.")))
      w
| item_session item kw r :
    Items (db w) !! item_id = Some item ->
    kw = session_kwargs [buy_view_line_item item]
           (success_url request)
           (origin request +:+ "/item/" +:+ str_of_int item_id +:+ "/") ->
    r = stripe (calls_of (trace w)) (Session_create kw) ->
    item_outcome request item_id w (Ok (session_response r))
      {| db := db w;
         trace := trace w ++ [Called (Session_create kw) r] |}.

End Outcomes.

(** ** Basic facts *)

Lemma truthy_str_false o : truthy_str o = false <-> unset o.
Proof.
  unfold unset. destruct o as [[|c s]|]; simpl; split; intros H;
    try tauto; try discriminate; destruct H; discriminate.
Qed.

Lemma str_take_length n s :
  str_len (str_take n s) = Nat.min n (str_len s).
Proof.
  revert n. induction s as [|c s IH]; intros n; simpl.
  - by destruct n.
  - destruct (is_continuation c) eqn:Hc; simpl.
    + by rewrite Hc, IH.
    + destruct n as [|n]; simpl; [done|]. by rewrite Hc, IH.
Qed.

Lemma str_take_prefix n s : exists rest, s = str_take n s +:+ rest.
Proof.
  revert n. induction s as [|c s IH]; intros n; simpl.
  - by exists ""%string.
  - destruct (is_continuation c).
    + destruct (IH n) as [rest Hr]. exists rest.
      change (String c s = String c (str_take n s +:+ rest)).
      by rewrite <- Hr.
    + destruct n as [|n]; [by exists (String c s)|].
      destruct (IH n) as [rest Hr]. exists rest.
      change (String c s = String c (str_take n s +:+ rest)).
      by rewrite <- Hr.
Qed.

(** A slice that is long enough is the whole string, and no other is. *)
Lemma str_take_all n s : str_take n s = s <-> (str_len s <= n)%nat.
Proof.
  split.
  - intros H. pose proof (str_take_length n s) as Hl. rewrite H in Hl. lia.
  - revert n. induction s as [|c s IH]; intros n; simpl; [done|].
    destruct (is_continuation c).
    + intros H. f_equal. by apply IH.
    + destruct n as [|n]; [lia|]. intros H. f_equal. apply IH. lia.
Qed.

Lemma first_None l : first l = None <-> l = [].
Proof.
  destruct l as [|x r]; simpl; [tauto|].
  split; [|discriminate]. destruct (first r); [case_match|]; discriminate.
Qed.

Lemma first_In l x : first l = Some x -> In x l.
Proof.
  revert x. induction l as [|y r IH]; simpl; intros x; [discriminate|].
  destruct (first r) as [z|].
  - case_match; intros [= <-]; auto.
  - intros [= <-]. auto.
Qed.

Lemma first_least l x : first l = Some x -> forall y, In y l -> fst x <= fst y.
Proof.
  revert x. induction l as [|z r IH]; simpl; intros x; [discriminate|].
  destruct (first r) as [m|] eqn:Hm.
  - specialize (IH m eq_refl).
    destruct (fst z <=? fst m) eqn:Hle; intros [= <-] y [<-|Hy];
      try apply Z.leb_le in Hle; try apply Z.leb_gt in Hle;
      try specialize (IH y Hy); lia.
  - apply first_None in Hm. subst r. intros [= <-] y [<-|[]]. lia.
Qed.

Lemma build_line_items_map tax items :
  build_line_items tax items = map (fun it => item_data tax (snd it)) items.
Proof.
  unfold build_line_items.
  enough (H : forall acc,
    fold_left (fun line_items item => line_items ++ [item_data tax (snd item)])
      items acc = acc ++ map (fun it => item_data tax (snd it)) items)
    by apply (H []).
  induction items as [|x r IH]; intros acc; simpl.
  - by rewrite app_nil_r.
  - rewrite IH. by rewrite <- app_assoc.
Qed.

Lemma new_events_app w d es :
  new_events w {| db := d; trace := trace w ++ es |} = es.
Proof. unfold new_events; simpl. apply drop_app_length. Qed.

Lemma new_events_app_from d t d' es :
  new_events {| db := d; trace := t |} {| db := d'; trace := t ++ es |} = es.
Proof. apply (new_events_app {| db := d; trace := t |}). Qed.

Lemma new_events_refl w : new_events w w = [].
Proof. unfold new_events. apply drop_all. Qed.

Lemma new_events_trans w w1 w2 :
  trace w1 = trace w ++ new_events w w1 ->
  trace w2 = trace w1 ++ new_events w1 w2 ->
  new_events w w2 = new_events w w1 ++ new_events w1 w2.
Proof.
  intros H1 H2. unfold new_events at 1. rewrite H2, H1 at 1.
  rewrite <- app_assoc. apply drop_app_length.
Qed.

Lemma count_app p t1 t2 : count p (t1 ++ t2) = (count p t1 + count p t2)%nat.
Proof. unfold count. by rewrite filter_app, length_app. Qed.

Lemma count_cons p e t :
  count p (e :: t) = ((if p e then 1 else 0) + count p t)%nat.
Proof.
  unfold count. rewrite filter_cons.
  destruct (p e); by destruct (decide _).
Qed.

Lemma count_some p t :
  count p t <> 0%nat -> exists e, In e t /\ p e = true.
Proof.
  induction t as [|x r IH]; [done|].
  rewrite count_cons. destruct (p x) eqn:Hx.
  - intros _. exists x. split; [by left|done].
  - simpl. intros H. destruct (IH H) as (e & He & Hp).
    exists e. split; [by right|done].
Qed.

Lemma count_le p q t :
  (forall e, p e = true -> q e = true) -> (count p t <= count q t)%nat.
Proof.
  intros Hpq. induction t as [|x r IH]; [done|].
  rewrite !count_cons. destruct (p x) eqn:Hp.
  - rewrite (Hpq x Hp). lia.
  - destruct (q x); lia.
Qed.

(** What [item_data] puts into the dictionary of a line item. *)
Lemma item_data_fields tax item :
  exists d,
    item_data tax item = PDict d
    /\ dict_get "quantity" d = Some (PInt 1)
    /\ dict_get "price_data" d
       = Some (PDict
                 [ ("currency", PStr (Item.currency item));
                   ("product_data",
                     PDict [ ("name", PStr (Item.name item));
                             ("description",
                               PStr (Item.description item)) ]);
                   ("unit_amount", PInt (Item.price item * 100)) ]%string)
    /\ (forall pk t id,
          tax = Some (pk, t) -> Tax.stripe_tax_rate_id t = Some id ->
          id <> ""%string ->
          dict_get "tax_rates" d = Some (PList [PStr id]))
    /\ (tax = None
        \/ (exists pk t, tax = Some (pk, t)
                         /\ unset (Tax.stripe_tax_rate_id t)) ->
        dict_get "tax_rates" d = None)
    /\ forall k, In k (all_keys (PDict d)) ->
         In k [ "price_data"; "currency"; "product_data"; "name";
                "description"; "unit_amount"; "quantity";
                "tax_rates" ]%string.
Proof.
  unfold item_data. destruct tax as [[pk t]|].
  - destruct (Tax.stripe_tax_rate_id t) as [[|c id]|] eqn:Hr; simpl;
      (eexists; split; [reflexivity|]; simpl; repeat split; try done;
       try (intros ? ? ? [= <- <-] ? ?; congruence);
       try (intros [|(? & ? & [= <- <-] & [|])]; congruence);
       intros k Hk; simpl in Hk |- *; tauto).
  - eexists. split; [reflexivity|]. simpl. repeat split; try done.
    intros k Hk. simpl in Hk |- *. tauto.
Qed.

Lemma line_items_keys tax (items : list (Z * Item.t)) k :
  In k (flat_map all_keys (map (fun it => item_data tax (snd it)) items)) ->
  In k session_request_keys.
Proof.
  induction items as [|x r IH]; simpl; [done|].
  rewrite in_app_iff. intros [Hk|Hk]; [|by apply IH].
  destruct (item_data_fields tax (snd x)) as (d & Hd & _ & _ & _ & _ & Hkeys).
  rewrite Hd in Hk. apply Hkeys in Hk. simpl in Hk |- *. tauto.
Qed.

Lemma session_kwargs_all_keys tax (items : list (Z * Item.t)) success cancel
    k :
  In k (all_keys
          (PDict (session_kwargs
                    (map (fun it => item_data tax (snd it)) items)
                    success cancel))) ->
  In k session_request_keys.
Proof.
  simpl. intros [<-|[<-|Hk]]; [tauto..|].
  apply in_app_iff in Hk as [Hk|Hk].
  - apply line_items_keys in Hk. simpl in Hk. tauto.
  - simpl in Hk. tauto.
Qed.

(** The slice of the characters of [s] out of [s] followed by text that
    starts a character. *)
Lemma str_take_append s c r :
  is_continuation c = false ->
  str_take (str_len s) (s +:+ String c r) = s.
Proof.
  intros Hc. induction s as [|a s IH].
  - simpl. by rewrite Hc.
  - change (String a s +:+ String c r) with (String a (s +:+ String c r)).
    simpl. destruct (is_continuation a); simpl; by rewrite IH.
Qed.

Lemma str_len_append s r : str_len (s +:+ r) = (str_len s + str_len r)%nat.
Proof.
  induction s as [|c s IH]; [done|].
  change (String c s +:+ r) with (String c (s +:+ r)). simpl.
  destruct (is_continuation c); by rewrite IH.
Qed.

Lemma origin_scheme_host request : origin request = current_scheme_host request.
Proof.
  unfold origin, build_absolute_uri, str_drop_last.
  rewrite str_len_append.
  replace (str_len (current_scheme_host request) + str_len "/" - 1)%nat
    with (str_len (current_scheme_host request)) by (simpl; lia).
  by apply str_take_append.
Qed.

#[local] Arguments session_kwargs : simpl never.
#[local] Arguments item_data : simpl never.
#[local] Arguments buy_view_line_item : simpl never.
#[local] Arguments tax_rate_request : simpl never.
#[local] Arguments session_response : simpl never.
#[local] Arguments items_all : simpl never.

Section Properties.

Variable stripe : Gateway.

Ltac unfold_monad :=
  unfold create_session, try_except, get_object_or_404, related, call,
    Discount_save, Tax_save, bind, ret, raise, get_db; simpl.

Lemma create_session_run kw w :
  create_session stripe kw w
  = (Ok (session_response (stripe (calls_of (trace w)) (Session_create kw))),
     {| db := db w;
        trace := trace w
                 ++ [ Called (Session_create kw)
                        (stripe (calls_of (trace w)) (Session_create kw)) ]
     |}).
Proof.
  unfold_monad. by destruct (stripe _ _).
Qed.

Lemma check_discount_run order w :
  discount_outcome stripe order w
    (fst (check_discount stripe order w))
    (snd (check_discount stripe order w)).
Proof.
  unfold check_discount. unfold_monad.
  destruct (Order.discount order) as [pk|] eqn:Hfk; simpl;
    [|by constructor].
  destruct (Discounts (db w) !! pk) as [discount|] eqn:Hrow; simpl;
    [|by econstructor].
  destruct (truthy_str (Discount.stripe_coupon_id discount)) eqn:Hid;
    simpl; [by econstructor|].
  destruct (coupon_request (db w) order discount) as [kw|] eqn:Hkw;
    unfold coupon_request in Hkw;
    destruct (truthy_int (Discount.amount_off discount)) eqn:Hamount;
    simpl; try discriminate.
  - destruct (first (items_all (db w) order)) as [[i item]|] eqn:Hfirst;
      [|discriminate].
    injection Hkw as <-. simpl.
    match goal with |- context [stripe ?h ?c] =>
      destruct (stripe h c) eqn:Hreply end; simpl;
      rewrite <- ?app_assoc; simpl; econstructor; eauto; unfold coupon_request;
      by rewrite Hamount, Hfirst.
  - injection Hkw as <-.
    match goal with |- context [stripe ?h ?c] =>
      destruct (stripe h c) eqn:Hreply end; simpl;
      rewrite <- ?app_assoc; simpl; econstructor; eauto;
      unfold coupon_request; by rewrite Hamount.
  - destruct (first (items_all (db w) order)) as [[i item]|] eqn:Hfirst;
      [discriminate|]. simpl.
    eapply discount_no_first_item; eauto. unfold coupon_request.
    by rewrite Hamount, Hfirst.
Qed.

Lemma check_tax_run order w :
  tax_outcome stripe order w
    (fst (check_tax stripe order w)) (snd (check_tax stripe order w)).
Proof.
  unfold check_tax. unfold_monad.
  destruct (Order.tax order) as [pk|] eqn:Hfk; simpl; [|by constructor].
  destruct (Taxes (db w) !! pk) as [tax|] eqn:Hrow; simpl;
    [|by econstructor].
  destruct (truthy_str (Tax.stripe_tax_rate_id tax)) eqn:Hid; simpl;
    [by econstructor|].
  fold (tax_rate_request tax).
  destruct (stripe (calls_of (trace w))
              (TaxRate_create (tax_rate_request tax))) eqn:Hreply; simpl;
    rewrite <- ?app_assoc; simpl; by econstructor.
Qed.

(** [buy_order_view] block by block. *)
Lemma buy_order_view_blocks request order_id w :
  buy_order_view stripe request order_id w
  = match Orders (db w) !! order_id with
    | None =>
        (Raise (Http404 ("No " +:+ "Order" +:+ " matches the given query.")),
         w)
    | Some order =>
        match check_discount stripe order w with
        | (Raise e, w1) => (Raise e, w1)
        | (Ok _, w1) =>
            match check_tax stripe order w1 with
            | (Raise e, w2) => (Raise e, w2)
            | (Ok tax, w2) =>
                create_session stripe
                  (session_kwargs
                     (build_line_items tax (items_all (db w2) order))
                     (success_url request)
                     (origin request +:+ "/order/" +:+ str_of_int order_id
                      +:+ "/"))
                  w2
            end
        end
    end.
Proof.
  cbv beta iota zeta delta
    [buy_order_view get_object_or_404 bind get_db ret raise].
  destruct (Orders (db w) !! order_id) as [order|]; [|done].
  destruct (check_discount stripe order w) as [[discount|e] w1]; [|done].
  by destruct (check_tax stripe order w1) as [[tax|e] w2].
Qed.

Lemma check_discount_of_materialized order pk discount w :
  Order.discount order = Some pk ->
  Discounts (db w) !! pk = Some discount ->
  truthy_str (Discount.stripe_coupon_id discount) = true ->
  check_discount stripe order w = (Ok (Some (pk, discount)), w).
Proof.
  intros Hfk Hrow Hset. unfold check_discount. unfold_monad.
  rewrite Hfk. simpl. rewrite Hrow. simpl. by rewrite Hset.
Qed.

Lemma buy_order_view_run request order_id w :
  order_outcome stripe request order_id w
    (fst (buy_order_view stripe request order_id w))
    (snd (buy_order_view stripe request order_id w)).
Proof.
  cbv beta iota zeta delta
    [buy_order_view get_object_or_404 bind get_db ret raise].
  destruct (Orders (db w) !! order_id) as [order|] eqn:Horder;
    [|by constructor].
  pose proof (check_discount_run order w) as Hd.
  destruct (check_discount stripe order w) as [[discount|e] w1];
    [|by econstructor].
  pose proof (check_tax_run order w1) as Ht.
  destruct (check_tax stripe order w1) as [[tax|e] w2];
    [|by econstructor].
  rewrite create_session_run, build_line_items_map.
  by econstructor.
Qed.

Lemma buy_view_run request item_id w :
  item_outcome stripe request item_id w
    (fst (buy_view stripe request item_id w))
    (snd (buy_view stripe request item_id w)).
Proof.
  cbv beta iota zeta delta
    [buy_view get_object_or_404 bind get_db ret raise].
  destruct (Items (db w) !! item_id) as [item|] eqn:Hitem;
    [|by constructor].
  rewrite create_session_run. by econstructor.
Qed.

(** Bring the outcome of a run into the context and split it into the
    paths of the code. *)
Ltac invert_outcome H := inversion H; subst; clear H.

Ltac order_paths request order_id w :=
  let H := fresh "Hrun" in
  pose proof (buy_order_view_run request order_id w) as H;
  destruct (buy_order_view stripe request order_id w) as [? ?];
  simpl in H |- *; invert_outcome H;
  repeat match goal with
    | H : discount_outcome _ _ _ _ _ |- _ => invert_outcome H
    | H : tax_outcome _ _ _ _ _ |- _ => invert_outcome H
    end.

Ltac item_paths request item_id w :=
  let H := fresh "Hrun" in
  pose proof (buy_view_run request item_id w) as H;
  destruct (buy_view stripe request item_id w) as [? ?];
  simpl in H |- *; invert_outcome H.

Ltac events :=
  simpl in *; repeat rewrite <- app_assoc in *; simpl in *;
  rewrite ?new_events_app, ?new_events_app_from, ?new_events_refl in *.

(** Finish a goal about the response with the reply that is known. *)
Ltac by_reply :=
  intros; unfold session_response in *;
  repeat match goal with
    | H : stripe _ _ = _ |- _ => rewrite H in *
    end;
  simplify_eq/=; done.

(** The session call of an order checkout: what is sent, and what the
    view does with the reply. *)
Lemma order_session_call request order_id w kw r :
  let run := buy_order_view stripe request order_id w in
  In (Called (Session_create kw) r) (new_events w (snd run)) ->
  exists order tax,
    Orders (db w) !! order_id = Some order
    /\ kw = session_kwargs
              (map (fun it => item_data tax (snd it))
                 (items_all (db w) order))
              (success_url request)
              (origin request +:+ "/order/" +:+ str_of_int order_id
               +:+ "/")
    /\ match tax with
       | Some (tpk, t) =>
           Order.tax order = Some tpk
           /\ Taxes (db (snd run)) !! tpk = Some t
       | None => Order.tax order = None
       end
    /\ fst run = Ok (session_response r)
    /\ last (new_events w (snd run)) = Some (Called (Session_create kw) r)
    /\ count is_session_call (new_events w (snd run)) = 1%nat.
Proof.
  intros run Hin. subst run.
  order_paths request order_id w; events;
    repeat (destruct Hin as [Hin|Hin]; [simplify_eq|]); try done;
    eexists _, _; (split; [eassumption|]); (split; [reflexivity|]);
    repeat split; simplify_map_eq; done.
Qed.

(** What no run touches: the trace it found, the orders, the items. *)
Lemma order_run_frame request order_id w :
  let run := buy_order_view stripe request order_id w in
  trace (snd run) = trace w ++ new_events w (snd run)
  /\ Orders (db (snd run)) = Orders (db w)
  /\ Items (db (snd run)) = Items (db w).
Proof.
  intros run. subst run.
  order_paths request order_id w; events; by rewrite ?app_nil_r.
Qed.

Lemma item_run_frame request item_id w :
  let run := buy_view stripe request item_id w in
  trace (snd run) = trace w ++ new_events w (snd run)
  /\ db (snd run) = db w
  /\ forall e, In e (new_events w (snd run)) -> is_call e = true.
Proof.
  intros run. subst run.
  item_paths request item_id w; events; rewrite ?app_nil_r;
    repeat split; try done.
  by intros e [<-|[]].
Qed.

(** The coupon call of a run, if there is one: it is the first event, for
    the discount of the order, which had no coupon id; a coupon that is
    returned is saved at once, a refusal ends the run. *)
Lemma order_run_coupon_call request order_id w kw r :
  let run := buy_order_view stripe request order_id w in
  In (Called (Coupon_create kw) r) (new_events w (snd run)) ->
  exists order pk d rest,
    Orders (db w) !! order_id = Some order
    /\ Order.discount order = Some pk
    /\ Discounts (db w) !! pk = Some d
    /\ unset (Discount.stripe_coupon_id d)
    /\ coupon_request (db w) order d = Some kw
    /\ new_events w (snd run) = Called (Coupon_create kw) r :: rest
    /\ count is_coupon_call rest = 0%nat
    /\ match r with
       | Returned id =>
           exists rest',
             rest = Saved_discount pk (Discount.set_stripe_coupon_id d id)
                    :: rest'
             /\ Forall (fun e => forall pk' d', e <> Saved_discount pk' d')
                  rest'
             /\ Discounts (db (snd run)) !! pk
                = Some (Discount.set_stripe_coupon_id d id)
       | Raised msg => rest = [] /\ fst run = Raise (GatewayError msg)
       end.
Proof.
  intros run Hin. subst run.
  order_paths request order_id w; events;
    repeat (destruct Hin as [Hin|Hin]; [simplify_eq|]); try done;
    eexists _, _, _, _;
    repeat match goal with
      | H : truthy_str _ = false |- _ => apply truthy_str_false in H
      end;
    do 5 (split; [eassumption|]);
    (split; [reflexivity|]); (split; [done|]);
    try done;
    (eexists; split; [reflexivity|]; split;
     [repeat constructor; done | by simplify_map_eq]).
Qed.

Lemma order_run_tax_rate_call request order_id w kw r :
  let run := buy_order_view stripe request order_id w in
  In (Called (TaxRate_create kw) r) (new_events w (snd run)) ->
  exists order pk t,
    Orders (db w) !! order_id = Some order
    /\ Order.tax order = Some pk
    /\ Taxes (db w) !! pk = Some t
    /\ unset (Tax.stripe_tax_rate_id t)
    /\ kw = tax_rate_request t
    /\ match r with
       | Returned id =>
           Taxes (db (snd run)) !! pk
           = Some (Tax.set_stripe_tax_rate_id t id)
       | Raised msg => fst run = Raise (GatewayError msg)
       end.
Proof.
  intros run Hin. subst run.
  order_paths request order_id w; events;
    repeat (destruct Hin as [Hin|Hin]; [simplify_eq|]); try done;
    eexists _, _, _;
    repeat match goal with
      | H : truthy_str _ = false |- _ => apply truthy_str_false in H
      end;
    do 4 (split; [eassumption|]); (split; [reflexivity|]);
    try done; by simplify_map_eq.
Qed.

(** The rows of the discounts and of the taxes after a run: as before,
    but for the discount and the tax of the order where they had no id
    and got one. *)
Lemma order_run_rows request order_id w :
  let run := buy_order_view stripe request order_id w in
  (forall pk,
     Discounts (db (snd run)) !! pk = Discounts (db w) !! pk
     \/ exists order d id,
          Orders (db w) !! order_id = Some order
          /\ Order.discount order = Some pk
          /\ Discounts (db w) !! pk = Some d
          /\ unset (Discount.stripe_coupon_id d)
          /\ Discounts (db (snd run)) !! pk
             = Some (Discount.set_stripe_coupon_id d id))
  /\ (forall pk,
        Taxes (db (snd run)) !! pk = Taxes (db w) !! pk
        \/ exists order t id,
             Orders (db w) !! order_id = Some order
             /\ Order.tax order = Some pk
             /\ Taxes (db w) !! pk = Some t
             /\ unset (Tax.stripe_tax_rate_id t)
             /\ Taxes (db (snd run)) !! pk
                = Some (Tax.set_stripe_tax_rate_id t id)).
Proof.
  intros run. subst run.
  order_paths request order_id w; events;
    repeat match goal with
      | H : truthy_str _ = false |- _ => apply truthy_str_false in H
      end;
    (split; intros k; try (by left));
    match goal with
    | |- context [<[?pk := _]> _ !! k] =>
        destruct (decide (pk = k)) as [<-|Hne];
        [ right; eexists _, _, _; repeat split;
          try eassumption; by simplify_map_eq
        | left; by simplify_map_eq ]
    end.
Qed.

(** The rows that a run has written: the discount and the tax of the
    order, where they had no id, with the id that the gateway returned to
    this run. *)
Lemma order_run_written_rows request order_id w :
  let run := buy_order_view stripe request order_id w in
  (forall k,
     Discounts (db (snd run)) !! k = Discounts (db w) !! k
     \/ exists order d kw id,
          Orders (db w) !! order_id = Some order
          /\ Order.discount order = Some k
          /\ Discounts (db w) !! k = Some d
          /\ unset (Discount.stripe_coupon_id d)
          /\ In (Called (Coupon_create kw) (Returned id))
               (new_events w (snd run))
          /\ Discounts (db (snd run)) !! k
             = Some (Discount.set_stripe_coupon_id d id))
  /\ (forall k,
        Taxes (db (snd run)) !! k = Taxes (db w) !! k
        \/ exists order t kw id,
             Orders (db w) !! order_id = Some order
             /\ Order.tax order = Some k
             /\ Taxes (db w) !! k = Some t
             /\ unset (Tax.stripe_tax_rate_id t)
             /\ In (Called (TaxRate_create kw) (Returned id))
                  (new_events w (snd run))
             /\ Taxes (db (snd run)) !! k
                = Some (Tax.set_stripe_tax_rate_id t id)).
Proof.
  intros run. subst run.
  order_paths request order_id w; events;
    repeat match goal with
      | H : truthy_str _ = false |- _ => apply truthy_str_false in H
      end;
    (split; intros k; try (by left));
    match goal with
    | |- context [<[?pk := _]> _ !! k] =>
        destruct (decide (pk = k)) as [<-|Hne];
        [ right; eexists _, _, _, _;
          do 4 (split; [eassumption|]);
          (split; [simpl; eauto 10 | by simplify_map_eq])
        | left; by simplify_map_eq ]
    end.
Qed.

(** A run makes at most one coupon call and one tax-rate call. *)
Lemma order_run_one_creation request order_id w :
  let run := buy_order_view stripe request order_id w in
  (count is_coupon_call (new_events w (snd run)) <= 1)%nat
  /\ (count is_tax_rate_call (new_events w (snd run)) <= 1)%nat.
Proof.
  intros run. subst run.
  order_paths request order_id w; events; unfold count; simpl; lia.
Qed.

(** An id that is set is not written again, whatever the run. *)
Lemma order_run_keeps_ids request order_id w :
  let run := buy_order_view stripe request order_id w in
  (forall k d, Discounts (db w) !! k = Some d ->
               truthy_str (Discount.stripe_coupon_id d) = true ->
               Discounts (db (snd run)) !! k = Some d)
  /\ (forall k t, Taxes (db w) !! k = Some t ->
                  truthy_str (Tax.stripe_tax_rate_id t) = true ->
                  Taxes (db (snd run)) !! k = Some t).
Proof.
  intros run. subst run.
  destruct (order_run_rows request order_id w) as [Hd Ht].
  split; intros k x Hrow Hset.
  - destruct (Hd k) as [->|(o & d & id & _ & _ & Hb & Hu & _)]; [done|].
    apply truthy_str_false in Hu. congruence.
  - destruct (Ht k) as [->|(o & d & id & _ & _ & Hb & Hu & _)]; [done|].
    apply truthy_str_false in Hu. congruence.
Qed.

(** No coupon call for a discount that has its id, no tax-rate call for
    a tax that has its id. *)
Lemma order_run_of_materialized request order_id order w :
  Orders (db w) !! order_id = Some order ->
  let run := buy_order_view stripe request order_id w in
  (forall pk d, Order.discount order = Some pk ->
                Discounts (db w) !! pk = Some d ->
                truthy_str (Discount.stripe_coupon_id d) = true ->
                count is_coupon_call (new_events w (snd run)) = 0%nat
                /\ Discounts (db (snd run)) = Discounts (db w))
  /\ (forall pk t, Order.tax order = Some pk ->
                   Taxes (db w) !! pk = Some t ->
                   truthy_str (Tax.stripe_tax_rate_id t) = true ->
                   count is_tax_rate_call (new_events w (snd run)) = 0%nat
                   /\ Taxes (db (snd run)) = Taxes (db w)).
Proof.
  intros Horder run. subst run.
  split; intros pk x Hfk Hrow Hset;
    order_paths request order_id w; events; simplify_eq; try congruence;
    done.
Qed.

(** After a run that got a coupon for the discount of its order, a run
    for an order with the same discount makes no coupon call. *)
Lemma no_coupon_call_after_creation
    request1 order1 request2 order2 o1 o2 pk kw id w :
  let run1 := buy_order_view stripe request1 order1 w in
  let run2 := buy_order_view stripe request2 order2 (snd run1) in
  Orders (db w) !! order1 = Some o1 ->
  Orders (db w) !! order2 = Some o2 ->
  Order.discount o1 = Some pk ->
  Order.discount o2 = Some pk ->
  In (Called (Coupon_create kw) (Returned id)) (new_events w (snd run1)) ->
  id <> ""%string ->
  count is_coupon_call (new_events (snd run1) (snd run2)) = 0%nat.
Proof.
  intros run1 run2 Ho1 Ho2 Hfk1 Hfk2 Hin Hid. subst run1 run2.
  destruct (order_run_coupon_call request1 order1 w kw _ Hin)
    as (o & k & d & rest & Ho & Hfk & _ & _ & _ & _ & _
        & rest' & _ & _ & Hsaved).
  simplify_eq.
  destruct (order_run_frame request1 order1 w) as (_ & Horders & _).
  rewrite <- Horders in Ho2.
  destruct (order_run_of_materialized request2 order2 o2 _ Ho2)
    as [Hd _].
  eapply Hd; [done..|]. simpl. by destruct id.
Qed.

Lemma no_tax_rate_call_after_creation
    request1 order1 request2 order2 o1 o2 pk kw id w :
  let run1 := buy_order_view stripe request1 order1 w in
  let run2 := buy_order_view stripe request2 order2 (snd run1) in
  Orders (db w) !! order1 = Some o1 ->
  Orders (db w) !! order2 = Some o2 ->
  Order.tax o1 = Some pk ->
  Order.tax o2 = Some pk ->
  In (Called (TaxRate_create kw) (Returned id)) (new_events w (snd run1)) ->
  id <> ""%string ->
  count is_tax_rate_call (new_events (snd run1) (snd run2)) = 0%nat.
Proof.
  intros run1 run2 Ho1 Ho2 Hfk1 Hfk2 Hin Hid. subst run1 run2.
  destruct (order_run_tax_rate_call request1 order1 w kw _ Hin)
    as (o & k & t & Ho & Hfk & _ & _ & _ & Hsaved).
  simplify_eq.
  destruct (order_run_frame request1 order1 w) as (_ & Horders & _).
  rewrite <- Horders in Ho2.
  destruct (order_run_of_materialized request2 order2 o2 _ Ho2)
    as [_ Ht].
  eapply Ht; [done..|]. simpl. by destruct id.
Qed.

(** C9. A checkout of an item or of an order that is not in the database
    raises [Http404] out of the view (no response is built from it) and
    leaves the world as it was: no gateway call, no write. *)
Theorem missing_object_raises_Http404 request pk w :
  (Items (db w) !! pk = None ->
   exists msg, buy_view stripe request pk w = (Raise (Http404 msg), w))
  /\ (Orders (db w) !! pk = None ->
      exists msg,
        buy_order_view stripe request pk w = (Raise (Http404 msg), w)).
Proof.
  split; intros Hnone.
  - item_paths request pk w; [eauto | congruence].
  - order_paths request pk w; try congruence; eauto.
Qed.

(** C10. An order without items whose discount has a nonzero amount_off
    and no coupon id: the view raises [AttributeError] (the currency of
    [order.items.first()], which is [None]) and leaves the world as it
    was, so no coupon and no session is created. *)
Theorem empty_order_with_amount_off_raises
    request order_id order pk discount a w :
  Orders (db w) !! order_id = Some order ->
  items_all (db w) order = [] ->
  Order.discount order = Some pk ->
  Discounts (db w) !! pk = Some discount ->
  Discount.amount_off discount = Some a -> a <> 0 ->
  unset (Discount.stripe_coupon_id discount) ->
  exists msg,
    buy_order_view stripe request order_id w
    = (Raise (AttributeError msg), w).
Proof.
  intros Horder Hitems Hfk Hrow Hamount Ha Hunset.
  apply truthy_str_false in Hunset.
  assert (Hreq : coupon_request (db w) order discount = None).
  { unfold coupon_request. rewrite Hitems, Hamount. simpl.
    by apply Z.eqb_neq in Ha as ->. }
  order_paths request order_id w; simplify_eq; try congruence; eauto.
Qed.

(** C4. The checkout of an item that exists makes one gateway call, a
    session request with one line item: the currency and the name of the
    item, the first 200 characters of its description (all of it when it
    has no more than 200 characters, whatever their bytes), unit amount
    price * 100, quantity 1.  When the gateway returns a session, the
    response is the JSON body with its id under "session_id". *)
Theorem buy_view_submits_one_line_item request item_id item w :
  Items (db w) !! item_id = Some item ->
  let run := buy_view stripe request item_id w in
  exists kw r description,
    new_events w (snd run) = [Called (Session_create kw) r]
    /\ db (snd run) = db w
    /\ dict_get "line_items" kw
       = Some (PList
           [ PDict
               [ ("price_data",
                   PDict
                     [ ("currency", PStr (Item.currency item));
                       ("product_data",
                         PDict [ ("name", PStr (Item.name item));
                                 ("description", PStr description) ]);
                       ("unit_amount", PInt (Item.price item * 100)) ]);
                 ("quantity", PInt 1) ]%string ])
    /\ description = str_take 200 (Item.description item)
    /\ str_len description = Nat.min 200 (str_len (Item.description item))
    /\ (exists rest, Item.description item = description +:+ rest)
    /\ ((str_len (Item.description item) <= 200)%nat ->
        description = Item.description item)
    /\ dict_get "mode" kw = Some (PStr "payment")
    /\ (forall id, r = Returned id ->
          fst run = Ok (JsonResponse [("session_id"%string, PStr id)])).
Proof.
  intros Hitem. simpl.
  item_paths request item_id w; simplify_eq.
  eexists _, _, _. events.
  unfold session_kwargs, buy_view_line_item.
  repeat split; try reflexivity.
  - apply str_take_length.
  - apply str_take_prefix.
  - apply str_take_all.
  - by intros id ->.
Qed.

(** C6. In both views an exception of the session call does not leave
    the view: the response is a 400 whose content is "Stripe error: "
    followed by [str(e)]; the call is made once, it is the last thing
    the view does.  When the call returns, the response is the JSON
    body with the session id. *)
Theorem session_failure_gives_400 request pk w :
  forall run,
    run = buy_view stripe request pk w
    \/ run = buy_order_view stripe request pk w ->
  forall kw r,
    In (Called (Session_create kw) r) (new_events w (snd run)) ->
    count is_session_call (new_events w (snd run)) = 1%nat
    /\ last (new_events w (snd run)) = Some (Called (Session_create kw) r)
    /\ (forall msg, r = Raised msg ->
          fst run = Ok (HttpResponseBadRequest ("Stripe error: " +:+ msg))
          /\ forall response, fst run = Ok response ->
               status_code response = 400)
    /\ (forall id, r = Returned id ->
          fst run = Ok (JsonResponse [("session_id"%string, PStr id)])).
Proof.
  intros run [-> | ->] kw r Hin.
  - item_paths request pk w; events; [done|].
    destruct Hin as [[= <- <-]|[]].
    repeat split; try done; by_reply.
  - destruct (order_session_call request pk w kw r Hin)
      as (order & tax & _ & _ & _ & Hres & Hlast & Hcount).
    repeat split; try done; intros; subst r; rewrite Hres in *;
      by simplify_eq.
Qed.

(** C7. In the checkout of an order an exception of the coupon call or
    of the tax-rate call leaves the view as it is (no response is built
    from it).  After a failed coupon call nothing else happened: no
    tax-rate call, no session call, no write.  After a failed tax-rate
    call there is no session call. *)
Theorem creation_failures_propagate request order_id w :
  let run := buy_order_view stripe request order_id w in
  forall kw msg,
    (In (Called (Coupon_create kw) (Raised msg)) (new_events w (snd run)) ->
     fst run = Raise (GatewayError msg)
     /\ new_events w (snd run) = [Called (Coupon_create kw) (Raised msg)]
     /\ db (snd run) = db w)
    /\ (In (Called (TaxRate_create kw) (Raised msg))
          (new_events w (snd run)) ->
        fst run = Raise (GatewayError msg)
        /\ last (new_events w (snd run))
           = Some (Called (TaxRate_create kw) (Raised msg))
        /\ count is_session_call (new_events w (snd run)) = 0%nat
        /\ Taxes (db (snd run)) = Taxes (db w)).
Proof.
  intros run kw msg. subst run.
  order_paths request order_id w; events;
    (split; intros Hin;
     repeat (destruct Hin as [Hin|Hin]; [simplify_eq|]); try done).
Qed.

(** C3. The session request of an order checkout has one line item per
    row of [order.items.all()], in the same order (a row that comes
    twice gives two line items): quantity 1, the currency of the item,
    unit amount price * 100; where the order has a tax whose tax-rate id
    is set when the line items are built, the id is the [tax_rates] of
    every line item, and an order without tax has none. *)
Theorem order_line_items request order_id order w :
  Orders (db w) !! order_id = Some order ->
  let run := buy_order_view stripe request order_id w in
  forall kw r,
    In (Called (Session_create kw) r) (new_events w (snd run)) ->
    exists line_items,
      dict_get "line_items" kw = Some (PList line_items)
      /\ length line_items = length (items_all (db w) order)
      /\ forall (i : nat) pk item,
           items_all (db w) order !! i = Some (pk, item) ->
           exists d,
             line_items !! i = Some (PDict d)
             /\ dict_get "quantity" d = Some (PInt 1)
             /\ dict_get "price_data" d
                = Some (PDict
                    [ ("currency", PStr (Item.currency item));
                      ("product_data",
                        PDict [ ("name", PStr (Item.name item));
                                ("description",
                                  PStr (Item.description item)) ]);
                      ("unit_amount", PInt (Item.price item * 100))
                    ]%string)
             /\ (forall tpk tax id,
                   Order.tax order = Some tpk ->
                   Taxes (db (snd run)) !! tpk = Some tax ->
                   Tax.stripe_tax_rate_id tax = Some id ->
                   id <> ""%string ->
                   dict_get "tax_rates" d = Some (PList [PStr id]))
             /\ (Order.tax order = None ->
                 dict_get "tax_rates" d = None).
Proof.
  intros Horder run kw r Hin. subst run.
  destruct (order_session_call request order_id w kw r Hin)
    as (order' & tax & Horder' & -> & Htax & _).
  simplify_eq.
  eexists. split; [reflexivity|]. split; [by rewrite length_map|].
  intros i ipk item Hi. rewrite list_lookup_fmap, Hi. simpl.
  destruct (item_data_fields tax item)
    as (d & -> & Hq & Hp & Hset & Hnone & _).
  exists d. repeat split; try done.
  - intros tpk t id Hfk Hrow. destruct tax as [[tpk' t']|].
    + destruct Htax as [Hfk' Hrow']. simplify_eq. eauto.
    + congruence.
  - intros Hfk. apply Hnone. destruct tax as [[tpk' t']|]; [|by left].
    destruct Htax. congruence.
Qed.

(** C5. The session request of an order checkout has the five parameters
    payment_method_types, line_items, mode, success_url and cancel_url
    and no other; no parameter at any depth is one for a discount or a
    coupon.  For an order whose discount has its coupon id, the run is
    the one of the same order without discount, the gateway being the
    same: same response, same events, so nothing of the discount reaches
    the gateway. *)
Theorem session_request_without_coupon request order_id w :
  let run := buy_order_view stripe request order_id w in
  (forall kw r,
     In (Called (Session_create kw) r) (new_events w (snd run)) ->
     keys kw = [ "payment_method_types"; "line_items"; "mode";
                 "success_url"; "cancel_url" ]%string
     /\ dict_get "payment_method_types" kw = Some (PList [PStr "card"])
     /\ dict_get "mode" kw = Some (PStr "payment")
     /\ dict_get "success_url" kw
        = Some (PStr (current_scheme_host request
                      +:+ "/success?session_id={CHECKOUT_SESSION_ID}"))
     /\ dict_get "cancel_url" kw
        = Some (PStr (current_scheme_host request
                      +:+ "/order/" +:+ str_of_int order_id +:+ "/"))
     /\ (forall k, In k (all_keys (PDict kw)) -> In k session_request_keys)
     /\ ~ In "discounts"%string (all_keys (PDict kw))
     /\ ~ In "coupon"%string (all_keys (PDict kw))
     /\ ~ In "promotion_code"%string (all_keys (PDict kw)))
  /\ (forall order pk discount,
        Orders (db w) !! order_id = Some order ->
        Order.discount order = Some pk ->
        Discounts (db w) !! pk = Some discount ->
        truthy_str (Discount.stripe_coupon_id discount) = true ->
        let w0 := {| db := without_discount order_id (db w);
                     trace := trace w |} in
        let run0 := buy_order_view stripe request order_id w0 in
        fst run0 = fst run
        /\ new_events w0 (snd run0) = new_events w (snd run)).
Proof.
  intros run. subst run. split.
  - intros kw r Hin.
    destruct (order_session_call request order_id w kw r Hin)
      as (order & tax & _ & -> & _).
    pose proof (session_kwargs_all_keys tax (items_all (db w) order)
                  (success_url request)
                  (origin request +:+ "/order/" +:+ str_of_int order_id
                   +:+ "/")) as Hkeys.
    unfold success_url in *. rewrite origin_scheme_host in *.
    repeat split; try done;
      intros Hk; apply Hkeys in Hk; simpl in Hk;
      repeat (destruct Hk as [Hk|Hk]; [discriminate|]); done.
  - intros order pk discount Horder Hfk Hrow Hset w0 run0.
    subst run0 w0. rewrite !buy_order_view_blocks. simpl.
    rewrite lookup_alter_eq, Horder. simpl.
    rewrite (check_discount_of_materialized order pk discount) by done.
    unfold check_tax, related, call, Tax_save, bind, ret, raise, get_db.
    simpl.
    destruct (Order.tax order) as [tpk|]; simpl.
    + destruct (Taxes (db w) !! tpk) as [tax|]; simpl;
        [|by rewrite !new_events_refl].
      destruct (truthy_str (Tax.stripe_tax_rate_id tax)); simpl.
      * rewrite !create_session_run. by events.
      * destruct (stripe _ _); simpl; [|by events].
        rewrite !create_session_run. by events.
    + rewrite !create_session_run. by events.
Qed.

(** C8. A checkout writes nothing but the coupon id of the discount of
    the order and the tax-rate id of its tax: the orders (their paid
    flag, their items) and the items are as before; a discount row that
    is not as before is the discount of the order that is checked out,
    it had no coupon id, it has now the id that a coupon call of this run
    returned, and its other fields are as before; the same for the tax.
    The checkout of an item writes nothing at all.  An id the gateway
    returned to the run is in the database after the run, whatever came
    after it in the run: a session call that fails undoes nothing. *)
Theorem checkout_write_footprint request pk w :
  forall run,
    run = buy_view stripe request pk w
    \/ run = buy_order_view stripe request pk w ->
  Orders (db (snd run)) = Orders (db w)
  /\ Items (db (snd run)) = Items (db w)
  /\ db (snd (buy_view stripe request pk w)) = db w
  /\ (forall k,
        Discounts (db (snd run)) !! k = Discounts (db w) !! k
        \/ exists order d d' kw id,
             Orders (db w) !! pk = Some order
             /\ Order.discount order = Some k
             /\ Discounts (db w) !! k = Some d
             /\ unset (Discount.stripe_coupon_id d)
             /\ In (Called (Coupon_create kw) (Returned id))
                  (new_events w (snd run))
             /\ Discounts (db (snd run)) !! k = Some d'
             /\ Discount.stripe_coupon_id d' = Some id
             /\ Discount.name d' = Discount.name d
             /\ Discount.amount_off d' = Discount.amount_off d
             /\ Discount.percent_off d' = Discount.percent_off d)
  /\ (forall k,
        Taxes (db (snd run)) !! k = Taxes (db w) !! k
        \/ exists order t t' kw id,
             Orders (db w) !! pk = Some order
             /\ Order.tax order = Some k
             /\ Taxes (db w) !! k = Some t
             /\ unset (Tax.stripe_tax_rate_id t)
             /\ In (Called (TaxRate_create kw) (Returned id))
                  (new_events w (snd run))
             /\ Taxes (db (snd run)) !! k = Some t'
             /\ Tax.stripe_tax_rate_id t' = Some id
             /\ Tax.name t' = Tax.name t
             /\ Tax.percentage t' = Tax.percentage t
             /\ Tax.inclusive t' = Tax.inclusive t)
  /\ (forall kw id,
        In (Called (Coupon_create kw) (Returned id))
          (new_events w (snd run)) ->
        exists order k d,
          Orders (db w) !! pk = Some order
          /\ Order.discount order = Some k
          /\ Discounts (db (snd run)) !! k = Some d
          /\ Discount.stripe_coupon_id d = Some id)
  /\ (forall kw id,
        In (Called (TaxRate_create kw) (Returned id))
          (new_events w (snd run)) ->
        exists order k t,
          Orders (db w) !! pk = Some order
          /\ Order.tax order = Some k
          /\ Taxes (db (snd run)) !! k = Some t
          /\ Tax.stripe_tax_rate_id t = Some id).
Proof.
  destruct (item_run_frame request pk w) as (_ & Hdb & Hcalls).
  intros run [-> | ->].
  - rewrite Hdb. repeat split; try (by left).
    + intros kw id Hin. item_paths request pk w; events; [done|].
      by destruct Hin as [|[]].
    + intros kw id Hin. item_paths request pk w; events; [done|].
      by destruct Hin as [|[]].
  - destruct (order_run_frame request pk w) as (_ & Horders & Hitems).
    destruct (order_run_written_rows request pk w) as [Hd Ht].
    split; [done|]. split; [done|]. split; [done|]. repeat split.
    + intros k.
      destruct (Hd k)
        as [|(o & d & kw & id & Ho & Hfk & Hb & Hu & Hin & Ha)];
        [by left|].
      right. by eexists o, d, _, kw, id.
    + intros k.
      destruct (Ht k)
        as [|(o & t & kw & id & Ho & Hfk & Hb & Hu & Hin & Ha)];
        [by left|].
      right. by eexists o, t, _, kw, id.
    + intros kw id Hin.
      destruct (order_run_coupon_call request pk w kw _ Hin)
        as (o & k & d & rest & Ho & Hfk & _ & _ & _ & _ & _
            & rest' & _ & _ & Ha).
      by eexists _, _, _.
    + intros kw id Hin.
      destruct (order_run_tax_rate_call request pk w kw _ Hin)
        as (o & k & t & Ho & Hfk & _ & _ & _ & Ha).
      by eexists _, _, _.
Qed.

(** C1 (amended). The checkout of an order whose discount has no coupon
    id (null or empty), and which has an item where amount_off is not
    zero: the first thing the view does is one coupon call, with
    amount_off and the currency of the first item (the least primary
    key) where amount_off is set and not zero, with percent_off where
    amount_off is null or zero; there is no other coupon call.  When the
    call returns, the next event is the discount saved with the id that
    was returned, before any tax-rate or session call. *)
Theorem coupon_created_then_saved request order_id order pk discount w :
  Orders (db w) !! order_id = Some order ->
  Order.discount order = Some pk ->
  Discounts (db w) !! pk = Some discount ->
  unset (Discount.stripe_coupon_id discount) ->
  (forall a, Discount.amount_off discount = Some a -> a <> 0 ->
             items_all (db w) order <> []) ->
  let run := buy_order_view stripe request order_id w in
  exists kw r rest,
    new_events w (snd run) = Called (Coupon_create kw) r :: rest
    /\ count is_coupon_call rest = 0%nat
    /\ (forall a,
          Discount.amount_off discount = Some a -> a <> 0 ->
          exists ipk item,
            first (items_all (db w) order) = Some (ipk, item)
            /\ In (ipk, item) (items_all (db w) order)
            /\ (forall other, In other (items_all (db w) order) ->
                              ipk <= fst other)
            /\ kw = [ ("duration", PStr "once");
                      ("amount_off", PInt a);
                      ("currency", PStr (Item.currency item)) ]%string)
    /\ (Discount.amount_off discount = None
        \/ Discount.amount_off discount = Some 0 ->
        kw = [ ("duration", PStr "once");
               ("percent_off", opt_int (Discount.percent_off discount))
             ]%string)
    /\ (forall id,
          r = Returned id ->
          exists rest',
            rest = Saved_discount pk
                     (Discount.set_stripe_coupon_id discount id) :: rest'
            /\ Discounts (db (snd run)) !! pk
               = Some (Discount.set_stripe_coupon_id discount id)).
Proof.
  intros Horder Hfk Hrow Hunset Hitems run. subst run.
  apply truthy_str_false in Hunset.
  assert (Hreq : exists kw,
    coupon_request (db w) order discount = Some kw
    /\ (forall a,
          Discount.amount_off discount = Some a -> a <> 0 ->
          exists ipk item,
            first (items_all (db w) order) = Some (ipk, item)
            /\ In (ipk, item) (items_all (db w) order)
            /\ (forall other, In other (items_all (db w) order) ->
                              ipk <= fst other)
            /\ kw = [ ("duration", PStr "once");
                      ("amount_off", PInt a);
                      ("currency", PStr (Item.currency item)) ]%string)
    /\ (Discount.amount_off discount = None
        \/ Discount.amount_off discount = Some 0 ->
        kw = [ ("duration", PStr "once");
               ("percent_off", opt_int (Discount.percent_off discount))
             ]%string)).
  { unfold coupon_request.
    destruct (Discount.amount_off discount) as [a|] eqn:Ha; simpl.
    - destruct (Z.eqb_spec a 0) as [->|Hne]; simpl.
      + eexists. split; [reflexivity|]. split; [by intros ? [= <-]|done].
      + specialize (Hitems a eq_refl Hne).
        destruct (first (items_all (db w) order)) as [[ipk item]|] eqn:Hf.
        * eexists. split; [reflexivity|]. split.
          -- intros ? [= <-] _. exists ipk, item. repeat split.
             ++ by apply first_In.
             ++ intros other Ho. apply (first_least _ _ Hf other Ho).
          -- intros [|[= ->]]; done.
        * by apply first_None in Hf.
    - eexists. split; [reflexivity|]. split; done. }
  destruct Hreq as (kw & Hkw & Hamount & Hpercent).
  order_paths request order_id w; simplify_eq; try congruence; events;
    eexists _, _, _; (split; [reflexivity|]); (split; [done|]);
    (split; [exact Hamount|]); (split; [exact Hpercent|]);
    intros ? [= <-]; eexists; split; try reflexivity; by simplify_map_eq.
Qed.

(** C2. A discount that has its coupon id: the checkout of an order
    with that discount makes no coupon call and leaves the discounts as
    they are; the same for a tax that has its tax-rate id.  An id that
    is set is the same after any checkout, of an item or of an order.
    Two checkouts one after the other, for orders with the same
    discount, create at most one coupon between them (and make at most
    one coupon call, when no coupon call of the first was refused); the
    same for orders with the same tax.  The ids the gateway returns are
    taken not to be the empty string, which the code reads as no id. *)
Theorem remote_ids_created_once request1 order1 request2 order2 w :
  let run1 := buy_order_view stripe request1 order1 w in
  let run2 := buy_order_view stripe request2 order2 (snd run1) in
  (forall order pk d,
     Orders (db w) !! order1 = Some order ->
     Order.discount order = Some pk ->
     Discounts (db w) !! pk = Some d ->
     truthy_str (Discount.stripe_coupon_id d) = true ->
     count is_coupon_call (new_events w (snd run1)) = 0%nat
     /\ Discounts (db (snd run1)) = Discounts (db w))
  /\ (forall order pk t,
        Orders (db w) !! order1 = Some order ->
        Order.tax order = Some pk ->
        Taxes (db w) !! pk = Some t ->
        truthy_str (Tax.stripe_tax_rate_id t) = true ->
        count is_tax_rate_call (new_events w (snd run1)) = 0%nat
        /\ Taxes (db (snd run1)) = Taxes (db w))
  /\ (forall k d,
        Discounts (db w) !! k = Some d ->
        truthy_str (Discount.stripe_coupon_id d) = true ->
        Discounts (db (snd run1)) !! k = Some d
        /\ Discounts (db (snd run2)) !! k = Some d
        /\ Discounts (db (snd (buy_view stripe request1 order1 w))) !! k
           = Some d)
  /\ (forall k t,
        Taxes (db w) !! k = Some t ->
        truthy_str (Tax.stripe_tax_rate_id t) = true ->
        Taxes (db (snd run1)) !! k = Some t
        /\ Taxes (db (snd run2)) !! k = Some t
        /\ Taxes (db (snd (buy_view stripe request1 order1 w))) !! k
           = Some t)
  /\ (forall o1 o2 pk,
        Orders (db w) !! order1 = Some o1 ->
        Orders (db w) !! order2 = Some o2 ->
        Order.discount o1 = Some pk ->
        Order.discount o2 = Some pk ->
        (forall kw, ~ In (Called (Coupon_create kw) (Returned ""))
                       (new_events w (snd run1))) ->
        (count is_coupon_created (new_events w (snd run2)) <= 1)%nat
        /\ ((forall kw msg, ~ In (Called (Coupon_create kw) (Raised msg))
                                (new_events w (snd run1))) ->
            (count is_coupon_call (new_events w (snd run2)) <= 1)%nat))
  /\ (forall o1 o2 pk,
        Orders (db w) !! order1 = Some o1 ->
        Orders (db w) !! order2 = Some o2 ->
        Order.tax o1 = Some pk ->
        Order.tax o2 = Some pk ->
        (forall kw, ~ In (Called (TaxRate_create kw) (Returned ""))
                       (new_events w (snd run1))) ->
        (count is_tax_rate_created (new_events w (snd run2)) <= 1)%nat
        /\ ((forall kw msg, ~ In (Called (TaxRate_create kw) (Raised msg))
                                (new_events w (snd run1))) ->
            (count is_tax_rate_call (new_events w (snd run2)) <= 1)%nat)).
Proof.
  intros run1 run2. subst run1 run2.
  set (w1 := snd (buy_order_view stripe request1 order1 w)).
  set (w2 := snd (buy_order_view stripe request2 order2 w1)).
  destruct (order_run_frame request1 order1 w) as (Htr1 & _ & _).
  destruct (order_run_frame request2 order2 w1) as (Htr2 & _ & _).
  fold w1 in Htr1. fold w2 in Htr2.
  pose proof (new_events_trans w w1 w2 Htr1 Htr2) as Hes.
  destruct (order_run_one_creation request1 order1 w) as [Hc1 Ht1].
  destruct (order_run_one_creation request2 order2 w1) as [Hc2 Ht2].
  fold w1 in Hc1, Ht1. fold w2 in Hc2, Ht2.
  destruct (order_run_keeps_ids request1 order1 w) as [Hkd1 Hkt1].
  destruct (order_run_keeps_ids request2 order2 w1) as [Hkd2 Hkt2].
  fold w1 in Hkd1, Hkt1. fold w2 in Hkd2, Hkt2.
  destruct (item_run_frame request1 order1 w) as (_ & Hitem & _).
  split; [|split; [|split; [|split; [|split]]]].
  - intros order pk d Ho Hfk Hrow Hset.
    destruct (order_run_of_materialized request1 order1 order w Ho)
      as [Hd _]. eauto.
  - intros order pk t Ho Hfk Hrow Hset.
    destruct (order_run_of_materialized request1 order1 order w Ho)
      as [_ Ht]. eauto.
  - intros k d Hrow Hset. rewrite Hitem. auto.
  - intros k t Hrow Hset. rewrite Hitem. auto.
  - intros o1 o2 pk Ho1 Ho2 Hfk1 Hfk2 Hids.
    rewrite Hes, !count_app.
    assert (Hsecond : forall kw id,
      In (Called (Coupon_create kw) (Returned id)) (new_events w w1) ->
      count is_coupon_call (new_events w1 w2) = 0%nat).
    { intros kw id Hin.
      apply (no_coupon_call_after_creation request1 order1 request2 order2
               o1 o2 pk kw id w); try done.
      intros ->. by apply (Hids kw). }
    pose proof (count_le is_coupon_created is_coupon_call
                  (new_events w w1)) as Hle1.
    pose proof (count_le is_coupon_created is_coupon_call
                  (new_events w1 w2)) as Hle2.
    assert (Himp : forall e, is_coupon_created e = true ->
                             is_coupon_call e = true)
      by (by intros [[] []| |]).
    specialize (Hle1 Himp). specialize (Hle2 Himp). split.
    + destruct (decide (count is_coupon_created (new_events w w1) = 0%nat))
        as [->|Hpos]; [lia|].
      apply count_some in Hpos as ([[kw| |] [id|]| |] & Hin & Hp);
        try discriminate.
      rewrite (Hsecond kw id Hin) in Hle2. lia.
    + intros Hraised.
      destruct (decide (count is_coupon_call (new_events w w1) = 0%nat))
        as [->|Hpos]; [lia|].
      apply count_some in Hpos as ([[kw| |] [id|msg]| |] & Hin & Hp);
        try discriminate.
      * rewrite (Hsecond kw id Hin). lia.
      * by destruct (Hraised kw msg).
  - intros o1 o2 pk Ho1 Ho2 Hfk1 Hfk2 Hids.
    rewrite Hes, !count_app.
    assert (Hsecond : forall kw id,
      In (Called (TaxRate_create kw) (Returned id)) (new_events w w1) ->
      count is_tax_rate_call (new_events w1 w2) = 0%nat).
    { intros kw id Hin.
      apply (no_tax_rate_call_after_creation request1 order1 request2
               order2 o1 o2 pk kw id w); try done.
      intros ->. by apply (Hids kw). }
    pose proof (count_le is_tax_rate_created is_tax_rate_call
                  (new_events w w1)) as Hle1.
    pose proof (count_le is_tax_rate_created is_tax_rate_call
                  (new_events w1 w2)) as Hle2.
    assert (Himp : forall e, is_tax_rate_created e = true ->
                             is_tax_rate_call e = true)
      by (by intros [[] []| |]).
    specialize (Hle1 Himp). specialize (Hle2 Himp). split.
    + destruct (decide (count is_tax_rate_created (new_events w w1)
                        = 0%nat)) as [->|Hpos]; [lia|].
      apply count_some in Hpos as ([[|kw|] [id|]| |] & Hin & Hp);
        try discriminate.
      rewrite (Hsecond kw id Hin) in Hle2. lia.
    + intros Hraised.
      destruct (decide (count is_tax_rate_call (new_events w w1) = 0%nat))
        as [->|Hpos]; [lia|].
      apply count_some in Hpos as ([[|kw|] [id|msg]| |] & Hin & Hp);
        try discriminate.
      * rewrite (Hsecond kw id Hin). lia.
      * by destruct (Hraised kw msg).
Qed.

(** *** Further properties of the two checkout views *)

(** X2. The events of a checkout come in the order of the code: coupon call,
    discount saved, tax-rate call, tax saved, session call, each at most
    once. *)
Theorem checkout_events_in_order request order_id w :
  let run := buy_order_view stripe request order_id w in
  StronglySorted (fun a b => (stage a < stage b)%nat)
    (new_events w (snd run)).
Proof.
  intros run. subst run.
  order_paths request order_id w; events; repeat constructor; simpl; lia.
Qed.

(** X3. A row is saved only with an id the gateway has just returned: a
    saved discount comes right after the coupon call that returned its
    id, a saved tax right after the tax-rate call that returned its id,
    and the row is the one of the database with that id. *)
Theorem saves_follow_creation request order_id w :
  let run := buy_order_view stripe request order_id w in
  (forall pk d,
     In (Saved_discount pk d) (new_events w (snd run)) ->
     exists kw id d0 rest,
       Discounts (db w) !! pk = Some d0
       /\ d = Discount.set_stripe_coupon_id d0 id
       /\ new_events w (snd run)
          = Called (Coupon_create kw) (Returned id)
            :: Saved_discount pk d :: rest)
  /\ (forall pk t,
        In (Saved_tax pk t) (new_events w (snd run)) ->
        exists kw id t0 before rest,
          Taxes (db w) !! pk = Some t0
          /\ t = Tax.set_stripe_tax_rate_id t0 id
          /\ new_events w (snd run)
             = before
               ++ Called (TaxRate_create kw) (Returned id)
                  :: Saved_tax pk t :: rest).
Proof.
  intros run. subst run.
  order_paths request order_id w; events;
    (split; intros k x Hin;
     repeat (destruct Hin as [Hin|Hin]; [simplify_eq|]); try done).
  all: try (eexists _, _, _, _;
            split; [eassumption|split; reflexivity]).
  all: try (eexists _, _, _, [], _;
            split; [eassumption|split; reflexivity]).
  all: match goal with
       | |- context [?a :: ?b :: Called (TaxRate_create _) _ :: _] =>
           eexists _, _, _, (a :: b :: nil), _
       end; split; [by simplify_map_eq|split; reflexivity].
Qed.

(** X4. A view answers only after the session call: a response is the JSON
    body with the id the gateway returned, or the 400 with the message of
    the exception the gateway raised, and the session call is the last
    event; a view that raises has made no session call. *)
Theorem response_comes_from_session request pk w :
  forall run,
    run = buy_view stripe request pk w
    \/ run = buy_order_view stripe request pk w ->
  (forall response,
     fst run = Ok response ->
     exists kw r,
       last (new_events w (snd run)) = Some (Called (Session_create kw) r)
       /\ ((exists id,
              r = Returned id
              /\ response = JsonResponse [("session_id"%string, PStr id)])
           \/ (exists msg,
                 r = Raised msg
                 /\ response
                    = HttpResponseBadRequest ("Stripe error: " +:+ msg))))
  /\ (forall e,
        fst run = Raise e ->
        count is_session_call (new_events w (snd run)) = 0%nat).
Proof.
  intros run [-> | ->].
  - item_paths request pk w; events; (split; [|done]); [done|].
    intros response [= <-]. eexists _, _. split; [reflexivity|].
    unfold session_response.
    match goal with |- context [stripe ?h ?c] => destruct (stripe h c) end;
      [left|right]; by eexists.
  - order_paths request pk w; events; (split; [|done]); try done;
      intros response [= <-]; eexists _, _; (split; [reflexivity|]);
      unfold session_response;
      (match goal with |- context [stripe ?h ?c] => destruct (stripe h c) end;
       [left|right]; by eexists).
Qed.

(** An order whose discount and tax, where it has them, have their ids:
    the run is the session call and nothing else. *)
Lemma order_run_nothing_to_create request order_id order w :
  Orders (db w) !! order_id = Some order ->
  (Order.discount order = None
   \/ exists pk d,
        Order.discount order = Some pk
        /\ Discounts (db w) !! pk = Some d
        /\ truthy_str (Discount.stripe_coupon_id d) = true) ->
  (Order.tax order = None
   \/ exists pk t,
        Order.tax order = Some pk
        /\ Taxes (db w) !! pk = Some t
        /\ truthy_str (Tax.stripe_tax_rate_id t) = true) ->
  let run := buy_order_view stripe request order_id w in
  exists kw r line_items,
    new_events w (snd run) = [Called (Session_create kw) r]
    /\ db (snd run) = db w
    /\ fst run = Ok (session_response r)
    /\ dict_get "line_items" kw = Some (PList line_items)
    /\ length line_items = length (items_all (db w) order).
Proof.
  intros Horder Hd Ht run. subst run.
  order_paths request order_id w; events; simplify_eq;
    try (destruct Hd as [Hd|(? & ? & Hd & ? & ?)]; congruence);
    try (destruct Ht as [Ht|(? & ? & Ht & ? & ?)]; congruence);
    eexists _, _, _; repeat split; by rewrite length_map.
Qed.

(** After a run that gave a response, the order has nothing left to
    create, when the ids the gateway returned are not empty. *)
Lemma order_run_answered request order_id order w response :
  Orders (db w) !! order_id = Some order ->
  let run := buy_order_view stripe request order_id w in
  fst run = Ok response ->
  (forall c, ~ In (Called c (Returned "")) (new_events w (snd run))) ->
  (Order.discount order = None
   \/ exists pk d,
        Order.discount order = Some pk
        /\ Discounts (db (snd run)) !! pk = Some d
        /\ truthy_str (Discount.stripe_coupon_id d) = true)
  /\ (Order.tax order = None
      \/ exists pk t,
           Order.tax order = Some pk
           /\ Taxes (db (snd run)) !! pk = Some t
           /\ truthy_str (Tax.stripe_tax_rate_id t) = true).
Proof.
  intros Horder run Hres Hids. subst run.
  order_paths request order_id w; events; simplify_eq; split.
  all: try (by left).
  all: right; eexists _, _; (split; [eassumption|]).
  all: simplify_map_eq; (split; [reflexivity|]); simpl; try assumption.
  all: match goal with
       | |- match ?id with EmptyString => _ | String _ _ => _ end = true =>
           destruct id; [exfalso; eapply Hids; eauto 10|done]
       end.
Qed.

(** X5. The checkout of an order that has nothing to create (no discount or
    a discount with its coupon id, no tax or a tax with its tax-rate id)
    is one gateway call, the session request, with one line item per
    item; nothing is written.  There is no check of the order: for an
    order without items the request is sent with an empty list. *)
Theorem checkout_with_nothing_to_create request order_id order w :
  Orders (db w) !! order_id = Some order ->
  (Order.discount order = None
   \/ exists pk d,
        Order.discount order = Some pk
        /\ Discounts (db w) !! pk = Some d
        /\ truthy_str (Discount.stripe_coupon_id d) = true) ->
  (Order.tax order = None
   \/ exists pk t,
        Order.tax order = Some pk
        /\ Taxes (db w) !! pk = Some t
        /\ truthy_str (Tax.stripe_tax_rate_id t) = true) ->
  let run := buy_order_view stripe request order_id w in
  exists kw r line_items,
    new_events w (snd run) = [Called (Session_create kw) r]
    /\ db (snd run) = db w
    /\ dict_get "line_items" kw = Some (PList line_items)
    /\ length line_items = length (items_all (db w) order)
    /\ (items_all (db w) order = [] -> line_items = []).
Proof.
  intros Horder Hd Ht run. subst run.
  destruct (order_run_nothing_to_create request order_id order w
              Horder Hd Ht)
    as (kw & r & line_items & Hes & Hdb & _ & Hitems & Hlen).
  exists kw, r, line_items. repeat split; try done.
  intros Hempty. rewrite Hempty in Hlen. by destruct line_items.
Qed.

(** X6. After a checkout that gave a response, a further checkout of the same
    order only asks for a session: one gateway call, nothing written.
    The ids the gateway returned are taken not to be empty. *)
Theorem second_checkout_only_asks_for_session
    request1 request2 order_id order w response :
  Orders (db w) !! order_id = Some order ->
  let run1 := buy_order_view stripe request1 order_id w in
  let run2 := buy_order_view stripe request2 order_id (snd run1) in
  fst run1 = Ok response ->
  (forall c, ~ In (Called c (Returned "")) (new_events w (snd run1))) ->
  exists kw r,
    new_events (snd run1) (snd run2) = [Called (Session_create kw) r]
    /\ db (snd run2) = db (snd run1).
Proof.
  intros Horder run1 run2 Hres Hids. subst run1 run2.
  destruct (order_run_answered request1 order_id order w response
              Horder Hres Hids) as [Hd Ht].
  destruct (order_run_frame request1 order_id w) as (_ & Horders & _).
  rewrite <- Horders in Horder.
  destruct (order_run_nothing_to_create request2 order_id order _
              Horder Hd Ht)
    as (kw & r & line_items & Hes & Hdb & _).
  by exists kw, r.
Qed.

(** For a discount without coupon id the run starts with the coupon
    call, where there is one to make. *)
Lemma order_run_starts_with_coupon request order_id order pk d kw w :
  Orders (db w) !! order_id = Some order ->
  Order.discount order = Some pk ->
  Discounts (db w) !! pk = Some d ->
  unset (Discount.stripe_coupon_id d) ->
  coupon_request (db w) order d = Some kw ->
  let run := buy_order_view stripe request order_id w in
  exists r rest, new_events w (snd run) = Called (Coupon_create kw) r :: rest.
Proof.
  intros Horder Hfk Hrow Hunset Hkw run. subst run.
  apply truthy_str_false in Hunset.
  order_paths request order_id w; events; simplify_eq; try congruence;
    by eexists _, _.
Qed.

(** X1. The tax of an order, when it has no tax-rate id and the discount of
    the order asks for nothing: the run starts with one tax-rate call,
    with the name of the tax as display name, its percentage and its
    inclusive flag.  An exception of the call ends the run, nothing is
    written.  When the call returns, the tax is saved with the id, then
    comes the session call, and every line item of it has the new id as
    its tax rate. *)
Theorem tax_rate_created_then_saved request order_id order pk tax w :
  Orders (db w) !! order_id = Some order ->
  Order.tax order = Some pk ->
  Taxes (db w) !! pk = Some tax ->
  unset (Tax.stripe_tax_rate_id tax) ->
  (Order.discount order = None
   \/ exists dpk d,
        Order.discount order = Some dpk
        /\ Discounts (db w) !! dpk = Some d
        /\ truthy_str (Discount.stripe_coupon_id d) = true) ->
  let run := buy_order_view stripe request order_id w in
  exists r rest,
    new_events w (snd run)
    = Called (TaxRate_create
                [ ("display_name", PStr (Tax.name tax));
                  ("percentage", PInt (Tax.percentage tax));
                  ("inclusive", PBool (Tax.inclusive tax)) ]%string) r
      :: rest
    /\ (forall msg,
          r = Raised msg ->
          rest = [] /\ fst run = Raise (GatewayError msg)
          /\ db (snd run) = db w)
    /\ (forall id,
          r = Returned id ->
          exists kw r' line_items,
            rest = [ Saved_tax pk (Tax.set_stripe_tax_rate_id tax id);
                     Called (Session_create kw) r' ]
            /\ Taxes (db (snd run)) !! pk
               = Some (Tax.set_stripe_tax_rate_id tax id)
            /\ dict_get "line_items" kw = Some (PList line_items)
            /\ (id <> ""%string ->
                forall line_item,
                  In line_item line_items ->
                  exists d,
                    line_item = PDict d
                    /\ dict_get "tax_rates" d = Some (PList [PStr id]))).
Proof.
  intros Horder Hfk Hrow Hunset Hd run. subst run.
  apply truthy_str_false in Hunset.
  order_paths request order_id w; events; simplify_eq; try congruence;
    try (destruct Hd as [Hd|(? & ? & Hd & ? & ?)]; congruence);
    eexists _, _; (split; [reflexivity|]);
    (split; [by intros ? [= <-]|]);
    intros ? [= <-]; eexists _, _, _; (split; [reflexivity|]);
    (split; [by simplify_map_eq|]); (split; [reflexivity|]);
    intros Hne line_item Hin; apply in_map_iff in Hin as (it & <- & _);
    match goal with |- context [item_data ?t ?i] =>
      destruct (item_data_fields t i) as (d & Hdict & _ & _ & Hset & _)
    end;
    exists d; (split; [done|]); by eapply Hset.
Qed.

(** X9. The label of a discount and its coupon can disagree: for a discount
    with both percent_off and amount_off set and not zero, [__str__]
    shows the percentage, and the coupon the checkout asks for is the one
    of the amount, without percent_off. *)
Theorem label_and_coupon_disagree
    request order_id order pk discount p a w :
  Orders (db w) !! order_id = Some order ->
  Order.discount order = Some pk ->
  Discounts (db w) !! pk = Some discount ->
  unset (Discount.stripe_coupon_id discount) ->
  Discount.percent_off discount = Some p -> p <> 0 ->
  Discount.amount_off discount = Some a -> a <> 0 ->
  items_all (db w) order <> [] ->
  let run := buy_order_view stripe request order_id w in
  Discount__str__ discount
  = Discount.name discount +:+ " — " +:+ str_of_int p +:+ "% off"
  /\ exists kw r rest,
       new_events w (snd run) = Called (Coupon_create kw) r :: rest
       /\ dict_get "amount_off" kw = Some (PInt a)
       /\ dict_get "percent_off" kw = None.
Proof.
  intros Horder Hfk Hrow Hunset Hp Hpne Ha Hane Hitems run. subst run.
  split.
  - unfold Discount__str__. rewrite Hp. simpl.
    by apply Z.eqb_neq in Hpne as ->.
  - destruct (first (items_all (db w) order)) as [[ipk item]|] eqn:Hfirst;
      [|by apply first_None in Hfirst].
    destruct (order_run_starts_with_coupon request order_id order pk discount
                [ ("duration", PStr "once"); ("amount_off", PInt a);
                  ("currency", PStr (Item.currency item)) ]%string w)
      as (r & rest & Hes); try done.
    + unfold coupon_request. rewrite Ha, Hfirst. simpl.
      by apply Z.eqb_neq in Hane as ->.
    + by eexists _, r, rest.
Qed.

(** X10. No checkout changes a label: the [__str__] of every item, discount,
    tax and order is after the run what it was before; an order that was
    not paid still reads "Not Paid", whatever the gateway answered. *)
Theorem labels_survive_checkout request pk w :
  forall run,
    run = buy_view stripe request pk w
    \/ run = buy_order_view stripe request pk w ->
  (forall k item,
     Items (db w) !! k = Some item ->
     exists item',
       Items (db (snd run)) !! k = Some item'
       /\ Item__str__ item' = Item__str__ item)
  /\ (forall k d,
        Discounts (db w) !! k = Some d ->
        exists d',
          Discounts (db (snd run)) !! k = Some d'
          /\ Discount__str__ d' = Discount__str__ d)
  /\ (forall k t,
        Taxes (db w) !! k = Some t ->
        exists t',
          Taxes (db (snd run)) !! k = Some t'
          /\ Tax__str__ t' = Tax__str__ t)
  /\ (forall k order,
        Orders (db w) !! k = Some order ->
        exists order',
          Orders (db (snd run)) !! k = Some order'
          /\ Order.paid order' = Order.paid order
          /\ Order__str__ (db (snd run)) k order'
             = Order__str__ (db w) k order).
Proof.
  intros run [-> | ->].
  - destruct (item_run_frame request pk w) as (_ & -> & _).
    repeat split; intros k x Hx; by exists x.
  - destruct (order_run_frame request pk w) as (_ & Horders & Hitems).
    destruct (order_run_rows request pk w) as [Hd Ht].
    repeat split; intros k x Hx.
    + exists x. by rewrite Hitems.
    + destruct (Hd k) as [->|(o & d & id & _ & _ & Hb & _ & ->)];
        [by exists x|].
      eexists. split; [reflexivity|]. by simplify_eq.
    + destruct (Ht k) as [->|(o & t & id & _ & _ & Hb & _ & ->)];
        [by exists x|].
      eexists. split; [reflexivity|]. by simplify_eq.
    + exists x. rewrite Horders. repeat split; [done|].
      unfold Order__str__, items_all. by rewrite Hitems.
Qed.

(** *** The routes, the pages, the labels *)

Lemma append_String c s r : String c s +:+ r = String c (s +:+ r).
Proof. reflexivity. Qed.

Lemma strip_prefix_append p r : urls.strip_prefix p (p +:+ r) = Some r.
Proof.
  induction p as [|c p IH]; [by destruct r|].
  rewrite append_String. simpl. by rewrite Ascii.eqb_refl.
Qed.



Lemma span_digits_of_uint d :
  urls.span_digits (NilEmpty.string_of_uint d +:+ "/")
  = (NilEmpty.string_of_uint d, "/"%string).
Proof.
  induction d; simpl NilEmpty.string_of_uint;
    rewrite ?append_String; simpl; by rewrite ?IHd.
Qed.

Lemma str_of_int_digits n :
  0 <= n ->
  exists d,
    d <> Decimal.Nil
    /\ str_of_int n = NilEmpty.string_of_uint d
    /\ NilZero.uint_of_string (str_of_int n) = Some d
    /\ Z.of_uint d = n.
Proof.
  intros Hn. unfold str_of_int. destruct n as [|p|p]; [| |lia].
  - exists (Decimal.D0 Decimal.Nil). by repeat split.
  - exists (Pos.to_uint p).
    pose proof (Unsigned.to_uint_nonnil p) as Hnil.
    split; [done|]. split; [|split].
    + simpl. by destruct (Pos.to_uint p).
    + by apply NilZero.usu.
    + apply (DecimalZ.of_to (Z.pos p)).
Qed.

Lemma match_route_int prefix name n :
  0 <= n ->
  urls.match_route [urls.Lit prefix; urls.Int name; urls.Lit "/"]
    (prefix +:+ str_of_int n +:+ "/")
  = Some [(name, n)].
Proof.
  intros Hn. destruct (str_of_int_digits n Hn) as (d & _ & Hs & Hu & Hd).
  simpl. rewrite strip_prefix_append.
  rewrite Hs at 1. rewrite span_digits_of_uint, <- Hs, Hu. simpl.
  by rewrite Hd.
Qed.


(** A route does not match a path that starts with the prefix of
    another. *)
Lemma match_route_other p q name rest :
  urls.strip_prefix p (q +:+ rest) = None ->
  urls.match_route [urls.Lit p; urls.Int name; urls.Lit "/"] (q +:+ rest)
  = None.
Proof. intros H. simpl. by rewrite H. Qed.

(** X11. The pages of an item and of an order, and the two checkouts, are each
    reached by the path made of the text of the route, the id in decimal
    and a slash: [resolve] gives the view and the id back. *)
Theorem paths_resolve_to_their_view n :
  0 <= n ->
  urls.resolve urls.urlpatterns ("item/" +:+ str_of_int n +:+ "/")
  = Some (urls.item_view, [("item_id"%string, n)])
  /\ urls.resolve urls.urlpatterns ("buy/" +:+ str_of_int n +:+ "/")
     = Some (urls.buy_view, [("item_id"%string, n)])
  /\ urls.resolve urls.urlpatterns ("order/" +:+ str_of_int n +:+ "/")
     = Some (urls.order_view, [("order_id"%string, n)])
  /\ urls.resolve urls.urlpatterns ("buy_order/" +:+ str_of_int n +:+ "/")
     = Some (urls.buy_order_view, [("order_id"%string, n)]).
Proof.
  intros Hn. unfold urls.urlpatterns, urls.resolve.
  rewrite !match_route_int by done.
  rewrite !match_route_other by done.
  done.
Qed.


(** X8. The two checkouts describe an item alike exactly when its
    description has at most 200 characters: [buy_view] cuts it there,
    [buy_order_view] does not. *)
Theorem line_items_agree_iff_short item :
  buy_view_line_item item = item_data None item
  <-> (str_len (Item.description item) <= 200)%nat.
Proof.
  rewrite <- str_take_all. unfold buy_view_line_item, item_data.
  split; [intros [= H]; exact H | intros H; rewrite H; reflexivity].
Qed.

(** X7. The session request of the checkout of an item: the five parameters
    and no other, card payments, payment mode, the success and cancel
    addresses on the host of the request; no parameter at any depth is
    one for a tax rate, a discount or a coupon. *)
Theorem buy_view_session_request request item_id item w :
  Items (db w) !! item_id = Some item ->
  let run := buy_view stripe request item_id w in
  exists kw r,
    new_events w (snd run) = [Called (Session_create kw) r]
    /\ keys kw = [ "payment_method_types"; "line_items"; "mode";
                   "success_url"; "cancel_url" ]%string
    /\ dict_get "payment_method_types" kw = Some (PList [PStr "card"])
    /\ dict_get "mode" kw = Some (PStr "payment")
    /\ dict_get "success_url" kw
       = Some (PStr (current_scheme_host request
                     +:+ "/success?session_id={CHECKOUT_SESSION_ID}"))
    /\ dict_get "cancel_url" kw
       = Some (PStr (current_scheme_host request
                     +:+ "/item/" +:+ str_of_int item_id +:+ "/"))
    /\ (forall k, In k (all_keys (PDict kw)) ->
                  In k session_request_keys /\ k <> "tax_rates"%string).
Proof.
  intros Hitem run. subst run.
  item_paths request item_id w; events; simplify_eq.
  eexists _, _. split; [reflexivity|].
  unfold session_kwargs, success_url, buy_view_line_item.
  rewrite origin_scheme_host. repeat split; try done;
    simpl in *; intuition (subst; (tauto || discriminate)).
Qed.

(** X13. The cancel address that a checkout gives to the gateway leads back to
    the page it came from: its path resolves, by [urlpatterns], to
    [item_view] of the same item for [buy_view], to [order_view] of the
    same order for [buy_order_view]. *)
Theorem cancel_urls_lead_back request pk w :
  0 <= pk ->
  (forall kw r,
     In (Called (Session_create kw) r)
       (new_events w (snd (buy_view stripe request pk w))) ->
     exists path,
       dict_get "cancel_url" kw
       = Some (PStr (current_scheme_host request +:+ "/" +:+ path))
       /\ urls.resolve urls.urlpatterns path
          = Some (urls.item_view, [("item_id"%string, pk)]))
  /\ (forall kw r,
        In (Called (Session_create kw) r)
          (new_events w (snd (buy_order_view stripe request pk w))) ->
        exists path,
          dict_get "cancel_url" kw
          = Some (PStr (current_scheme_host request +:+ "/" +:+ path))
          /\ urls.resolve urls.urlpatterns path
             = Some (urls.order_view, [("order_id"%string, pk)])).
Proof.
  intros Hpk.
  destruct (paths_resolve_to_their_view pk Hpk) as (Hi & _ & Ho & _).
  split; intros kw r Hin.
  - item_paths request pk w; events; [done|].
    destruct Hin as [[= <- <-]|[]].
    exists ("item/" +:+ str_of_int pk +:+ "/"). split; [|done].
    unfold session_kwargs. simpl. by rewrite origin_scheme_host.
  - destruct (order_session_call request pk w kw r Hin)
      as (order & tax & _ & -> & _).
    exists ("order/" +:+ str_of_int pk +:+ "/"). split; [|done].
    unfold session_kwargs. simpl. by rewrite origin_scheme_host.
Qed.

(** X14. The two pages only read: whatever the id, the world is after
    [item_view] and [order_view] what it was before (no gateway call,
    nothing saved), so a checkout after the page is the checkout without
    it.  For an id that is there the page renders its template with the
    object and the publishable key; for one that is not, it raises
    [Http404]. *)
Theorem pages_only_read settings request pk w :
  snd (item_view settings request pk w) = w
  /\ snd (order_view settings request pk w) = w
  /\ (forall item,
        Items (db w) !! pk = Some item ->
        fst (item_view settings request pk w)
        = Ok (render "products/item_detail.html"
                [ ("item", CItem pk item);
                  ("stripe_publishable_key",
                    CStr (STRIPE_PUBLISHABLE_KEY settings)) ]%string))
  /\ (Items (db w) !! pk = None ->
      exists msg, fst (item_view settings request pk w) = Raise (Http404 msg))
  /\ (forall order,
        Orders (db w) !! pk = Some order ->
        fst (order_view settings request pk w)
        = Ok (render "products/order_detail.html"
                [ ("order", COrder pk order);
                  ("stripe_publishable_key",
                    CStr (STRIPE_PUBLISHABLE_KEY settings)) ]%string))
  /\ (Orders (db w) !! pk = None ->
      exists msg, fst (order_view settings request pk w) = Raise (Http404 msg))
  /\ buy_view stripe request pk (snd (item_view settings request pk w))
     = buy_view stripe request pk w
  /\ buy_order_view stripe request pk (snd (order_view settings request pk w))
     = buy_order_view stripe request pk w.
Proof.
  assert (Hi : snd (item_view settings request pk w) = w).
  { unfold item_view, get_object_or_404, bind, get_db, ret, raise. simpl.
    by destruct (Items (db w) !! pk). }
  assert (Ho : snd (order_view settings request pk w) = w).
  { unfold order_view, get_object_or_404, bind, get_db, ret, raise. simpl.
    by destruct (Orders (db w) !! pk). }
  rewrite Hi, Ho. repeat split; try done;
    unfold item_view, order_view, get_object_or_404, bind, get_db, ret,
      raise; simpl.
  - by intros item ->.
  - intros ->. by eexists.
  - by intros order ->.
  - intros ->. by eexists.
Qed.

End Properties.

(** ** The theorems at work on the example shop *)

Section Examples.

Import Example.

Lemma missing_object_example :
  (exists msg, buy_view numbering request 7 start
               = (Raise (Http404 msg), start))
  /\ (exists msg, buy_order_view numbering request 7 start
                  = (Raise (Http404 msg), start)).
Proof.
  destruct (missing_object_raises_Http404 numbering request 7 start)
    as [Hitem Horder].
  split; [apply Hitem | apply Horder]; reflexivity.
Defined.

Lemma empty_order_example :
  exists msg, buy_order_view numbering request 3 start
              = (Raise (AttributeError msg), start).
Proof.
  apply (empty_order_with_amount_off_raises numbering request 3
           (Order.Build [] (Some 3) None false) 3 five_off 5 start);
    try reflexivity; [lia | by left].
Defined.

Lemma buy_mug_example :
  (exists kw r,
     new_events start (snd (buy_view numbering request 1 start))
     = [Called (Session_create kw) r]
     /\ dict_get "line_items" kw
        = Some (PList
            [ PDict
                [ ("price_data",
                    PDict
                      [ ("currency", PStr "USD");
                        ("product_data",
                          PDict [ ("name", PStr "Mug");
                                  ("description", PStr "A mug.") ]);
                        ("unit_amount", PInt 1000) ]);
                  ("quantity", PInt 1) ]%string ])
     /\ fst (buy_view numbering request 1 start)
        = Ok (JsonResponse [("session_id"%string, PStr "cs_0")]))
  /\ (str_len (Item.description Example_both.kniga) = 150%nat
      /\ String.length (Item.description Example_both.kniga) = 275%nat
      /\ exists kw r,
           new_events Example_both.start
             (snd (buy_view numbering request 3 Example_both.start))
           = [Called (Session_create kw) r]
           /\ dict_get "line_items" kw
              = Some (PList
                  [ PDict
                      [ ("price_data",
                          PDict
                            [ ("currency", PStr "EUR");
                              ("product_data",
                                PDict
                                  [ ("name", PStr "Kniga");
                                    ("description",
                                      PStr (Item.description
                                              Example_both.kniga)) ]);
                              ("unit_amount", PInt 700) ]);
                        ("quantity", PInt 1) ]%string ])).
Proof.
  split.
  - destruct (buy_view_submits_one_line_item numbering request 1 mug start
                eq_refl)
      as (kw & r & description & Hevents & _ & Hitems & -> & _ & _ & _ & _
          & Hjson).
    exists kw, r. split; [exact Hevents|]. split; [exact Hitems|].
    apply Hjson.
    assert (Hr : [Called (Session_create kw) r]
                 = new_events start
                     (snd (buy_view numbering request 1 start)))
      by (symmetry; exact Hevents).
    vm_compute in Hr. by injection Hr as _ ->.
  - split; [vm_compute; reflexivity|]. split; [vm_compute; reflexivity|].
    destruct (buy_view_submits_one_line_item numbering request 3
                Example_both.kniga Example_both.start eq_refl)
      as (kw & r & description & Hevents & _ & Hitems & _ & _ & _ & Hall
          & _).
    exists kw, r. split; [exact Hevents|].
    rewrite Hitems, Hall; [reflexivity|].
    apply Nat.leb_le. vm_compute. reflexivity.
Defined.

Lemma declined_session_example :
  fst (buy_view refusing request 1 start)
  = Ok (HttpResponseBadRequest ("Stripe error: " +:+ "card declined"))
  /\ fst (buy_order_view no_session request 1 start)
     = Ok (HttpResponseBadRequest ("Stripe error: " +:+ "card declined")).
Proof.
  split.
  - edestruct (session_failure_gives_400 refusing request 1 start _
                 (or_introl eq_refl)) as (_ & _ & H400 & _);
      [vm_compute; left; reflexivity|].
    by apply H400.
  - edestruct (session_failure_gives_400 no_session request 1 start _
                 (or_intror eq_refl)) as (_ & _ & H400 & _);
      [vm_compute; do 4 right; left; reflexivity|].
    by apply H400.
Defined.

Lemma refused_creation_example :
  fst (buy_order_view refusing request 1 start)
  = Raise (GatewayError "card declined")
  /\ db (snd (buy_order_view refusing request 1 start)) = db start
  /\ fst (buy_order_view refusing request 5 start)
     = Raise (GatewayError "card declined")
  /\ count is_session_call
       (new_events start (snd (buy_order_view refusing request 5 start)))
     = 0%nat.
Proof.
  edestruct (creation_failures_propagate refusing request 1 start)
    as [Hcoupon _].
  edestruct (creation_failures_propagate refusing request 5 start)
    as [_ Htax].
  destruct Hcoupon as (Hres & _ & Hdb); [vm_compute; left; reflexivity|].
  destruct Htax as (Hres' & _ & Hcount & _);
    [vm_compute; left; reflexivity|].
  done.
Defined.

Lemma order_line_items_example :
  exists kw r line_items,
    In (Called (Session_create kw) r)
      (new_events start (snd (buy_order_view numbering request 1 start)))
    /\ dict_get "line_items" kw = Some (PList line_items)
    /\ length line_items = 2%nat.
Proof.
  edestruct (order_line_items numbering request 1
               (Order.Build [2; 1] (Some 1) (Some 1) false) start eq_refl)
    as (line_items & Hitems & Hlen & _);
    [vm_compute; do 4 right; left; reflexivity|].
  eexists _, _, line_items. split; [|split; [exact Hitems|exact Hlen]].
  vm_compute. do 4 right. left. reflexivity.
Defined.

Lemma session_request_example :
  (exists kw r,
     In (Called (Session_create kw) r)
       (new_events later (snd (buy_order_view numbering request 1 later)))
     /\ keys kw = [ "payment_method_types"; "line_items"; "mode";
                    "success_url"; "cancel_url" ]%string
     /\ ~ In "discounts"%string (all_keys (PDict kw)))
  /\ fst (buy_order_view numbering request 1
            {| db := without_discount 1 (db later);
               trace := trace later |})
     = fst (buy_order_view numbering request 1 later).
Proof.
  destruct (session_request_without_coupon numbering request 1 later)
    as [Hkeys Hsame].
  split.
  - eexists _, _. split; [vm_compute; left; reflexivity|].
    edestruct Hkeys as (Hk & _ & _ & _ & _ & _ & Hno & _);
      [vm_compute; left; reflexivity|].
    by split.
  - edestruct Hsame as [Hres _]; [| | | |exact Hres];
      [vm_compute; reflexivity..].
Defined.

Lemma write_footprint_example :
  Orders (db (snd (buy_order_view no_session request 1 start)))
  = Orders (db start)
  /\ Discounts (db (snd (buy_order_view no_session request 1 start))) !! 2
     = Discounts (db start) !! 2
  /\ exists order k t,
       Orders (db start) !! 1 = Some order
       /\ Order.tax order = Some k
       /\ Taxes (db (snd (buy_order_view no_session request 1 start))) !! k
          = Some t
       /\ Tax.stripe_tax_rate_id t = Some "txr_1"%string.
Proof.
  edestruct (checkout_write_footprint no_session request 1 start _
               (or_intror eq_refl))
    as (Horders & _ & _ & Hrows & _ & _ & Htax).
  split; [exact Horders|]. split.
  - destruct (Hrows 2)
      as [Hsame|(o & d & d' & kw & id & Ho & Hfk & _)]; [exact Hsame|].
    vm_compute in Ho. injection Ho as <-. discriminate Hfk.
  - eapply Htax. vm_compute. do 2 right. left. reflexivity.
Defined.

Lemma coupon_example :
  exists r rest,
    new_events start (snd (buy_order_view numbering request 6 start))
    = Called (Coupon_create
                [ ("duration", PStr "once"); ("amount_off", PInt 5);
                  ("currency", PStr "USD") ]%string) r :: rest.
Proof.
  edestruct (coupon_created_then_saved numbering request 6
               (Order.Build [2; 1] (Some 3) None false) 3 five_off start)
    as (kw & r & rest & Hevents & _ & Hamount & _);
    try reflexivity; [by left | by intros |].
  exists r, rest. rewrite Hevents.
  destruct (Hamount 5 eq_refl) as (ipk & item & Hfirst & _ & _ & ->);
    [lia|].
  vm_compute in Hfirst. by injection Hfirst as <- <-.
Defined.

Lemma two_checkouts_example :
  (count is_coupon_call
     (new_events start (snd (buy_order_view numbering request 4 later)))
   <= 1)%nat
  /\ (count is_tax_rate_call
        (new_events start (snd (buy_order_view numbering request 4 later)))
      <= 1)%nat.
Proof.
  destruct (remote_ids_created_once numbering request 1 request 4 start)
    as (_ & _ & _ & _ & Hcoupon & Htax).
  split.
  - destruct (Hcoupon (Order.Build [2; 1] (Some 1) (Some 1) false)
                (Order.Build [1; 1] (Some 1) (Some 1) true) 1
                eq_refl eq_refl eq_refl eq_refl) as [_ Hcalls].
    + intros kw Hin. vm_compute in Hin.
      repeat (destruct Hin as [Hin|Hin]; [discriminate|]). done.
    + apply Hcalls. intros kw msg Hin. vm_compute in Hin.
      repeat (destruct Hin as [Hin|Hin]; [discriminate|]). done.
  - destruct (Htax (Order.Build [2; 1] (Some 1) (Some 1) false)
                (Order.Build [1; 1] (Some 1) (Some 1) true) 1
                eq_refl eq_refl eq_refl eq_refl) as [_ Hcalls].
    + intros kw Hin. vm_compute in Hin.
      repeat (destruct Hin as [Hin|Hin]; [discriminate|]). done.
    + apply Hcalls. intros kw msg Hin. vm_compute in Hin.
      repeat (destruct Hin as [Hin|Hin]; [discriminate|]). done.
Defined.

(** C1 as it is written does not hold: the discount of order 2 has
    amount_off set, to 0, and no coupon id; the checkout makes a
    percent-based coupon call and no amount-based one. *)
Lemma zero_amount_off_gets_percent_coupon :
  let run := buy_order_view numbering request 2 start in
  Orders (db start) !! 2 = Some (Order.Build [1; 2] (Some 2) None false)
  /\ Discounts (db start) !! 2 = Some zero_off
  /\ Discount.stripe_coupon_id zero_off = None
  /\ Discount.amount_off zero_off = Some 0
  /\ filter (fun e => is_coupon_call e = true) (new_events start (snd run))
     = [ Called (Coupon_create
                   [ ("duration", PStr "once");
                     ("percent_off", PInt 10) ]%string)
           (Returned "co_0") ]
  /\ ~ (exists currency r,
          In (Called (Coupon_create
                        [ ("duration", PStr "once");
                          ("amount_off", PInt 0);
                          ("currency", PStr currency) ]%string) r)
            (new_events start (snd run))).
Proof.
  simpl. repeat split; try reflexivity.
  intros (currency & r & Hin). vm_compute in Hin.
  repeat (destruct Hin as [Hin|Hin]; try discriminate). done.
Qed.

End Examples.

(** ** The further properties on the example shop *)

Section More_examples.

Import Example.

Lemma tax_rate_example :
  exists r rest,
    new_events start (snd (buy_order_view numbering request 5 start))
    = Called (TaxRate_create
                [ ("display_name", PStr "VAT"); ("percentage", PInt 20);
                  ("inclusive", PBool true) ]%string) r :: rest.
Proof.
  edestruct (tax_rate_created_then_saved numbering request 5
               (Order.Build [1] None (Some 1) false) 1 vat start)
    as (r & rest & Hes & _); try reflexivity; [by left | by left |].
  by exists r, rest.
Defined.

Lemma saves_example :
  exists kw id d0 rest,
    Discounts (db start) !! 1 = Some d0
    /\ new_events start (snd (buy_order_view numbering request 1 start))
       = Called (Coupon_create kw) (Returned id)
         :: Saved_discount 1 (Discount.set_stripe_coupon_id d0 id) :: rest.
Proof.
  destruct (saves_follow_creation numbering request 1 start) as [Hd _].
  edestruct Hd as (kw & id & d0 & rest & Hrow & -> & Hes);
    [vm_compute; right; left; reflexivity|].
  by exists kw, id, d0, rest.
Defined.

Lemma response_example :
  exists kw r,
    last (new_events start (snd (buy_view numbering request 1 start)))
    = Some (Called (Session_create kw) r)
    /\ count is_session_call
         (new_events start (snd (buy_order_view refusing request 1 start)))
       = 0%nat.
Proof.
  destruct (response_comes_from_session numbering request 1 start _
              (or_introl eq_refl)) as [Hok _].
  destruct (response_comes_from_session refusing request 1 start _
              (or_intror eq_refl)) as [_ Hraise].
  edestruct Hok as (kw & r & Hlast & _); [vm_compute; reflexivity|].
  exists kw, r. split; [exact Hlast|].
  eapply Hraise. vm_compute. reflexivity.
Defined.

Lemma nothing_to_create_example :
  exists kw r,
    new_events later (snd (buy_order_view numbering request 1 later))
    = [Called (Session_create kw) r]
    /\ db (snd (buy_order_view numbering request 1 later)) = db later.
Proof.
  edestruct (checkout_with_nothing_to_create numbering request 1
               (Order.Build [2; 1] (Some 1) (Some 1) false) later)
    as (kw & r & line_items & Hes & Hdb & _); [reflexivity| | |].
  - right. eexists 1, _. repeat split; vm_compute; reflexivity.
  - right. eexists 1, _. repeat split; vm_compute; reflexivity.
  - by exists kw, r.
Defined.

Lemma second_checkout_example :
  exists kw r,
    new_events later (snd (buy_order_view numbering request 1 later))
    = [Called (Session_create kw) r]
    /\ db (snd (buy_order_view numbering request 1 later)) = db later.
Proof.
  apply (second_checkout_only_asks_for_session numbering request request 1
           (Order.Build [2; 1] (Some 1) (Some 1) false) start
           (JsonResponse [("session_id"%string, PStr "cs_2")])).
  - reflexivity.
  - vm_compute. reflexivity.
  - intros c Hin. vm_compute in Hin.
    repeat (destruct Hin as [Hin|Hin]; [discriminate|]). done.
Defined.

Lemma buy_view_request_example :
  exists kw r,
    new_events start (snd (buy_view numbering request 1 start))
    = [Called (Session_create kw) r]
    /\ dict_get "cancel_url" kw = Some (PStr "http://shop.test/item/1/").
Proof.
  destruct (buy_view_session_request numbering request 1 mug start eq_refl)
    as (kw & r & Hes & _ & _ & _ & _ & Hcancel & _).
  exists kw, r. split; [exact Hes|]. rewrite Hcancel. vm_compute.
  reflexivity.
Defined.

Lemma short_description_example :
  buy_view_line_item Example_both.kniga
  = item_data None Example_both.kniga.
Proof.
  apply (proj2 (line_items_agree_iff_short Example_both.kniga)).
  apply Nat.leb_le. vm_compute. reflexivity.
Defined.

Lemma both_off_example :
  Discount__str__ Example_both.both_off = "both — 10% off"%string
  /\ exists kw r rest,
       new_events Example_both.start
         (snd (buy_order_view numbering request 8 Example_both.start))
       = Called (Coupon_create kw) r :: rest
       /\ dict_get "amount_off" kw = Some (PInt 5)
       /\ dict_get "percent_off" kw = None.
Proof.
  edestruct (label_and_coupon_disagree numbering request 8
               (Order.Build [1] (Some 4) None false) 4
               Example_both.both_off 10 5 Example_both.start)
    as [Hlabel Hcoupon]; try reflexivity; try lia;
    [by left | by vm_compute |].
  split; [rewrite Hlabel; vm_compute; reflexivity | exact Hcoupon].
Defined.

Lemma labels_example :
  exists order',
    Orders (db (snd (buy_order_view numbering request 1 start))) !! 1
    = Some order'
    /\ Order.paid order' = false
    /\ Order__str__ (db (snd (buy_order_view numbering request 1 start))) 1
         order'
       = "Order #1 — 2 items — Not Paid"%string.
Proof.
  destruct (labels_survive_checkout numbering request 1 start _
              (or_intror eq_refl)) as (_ & _ & _ & Ho).
  destruct (Ho 1 (Order.Build [2; 1] (Some 1) (Some 1) false) eq_refl)
    as (order' & Hrow & Hpaid & Hlabel).
  exists order'. split; [exact Hrow|]. split; [exact Hpaid|].
  rewrite Hlabel. vm_compute. reflexivity.
Defined.

Lemma paths_example :
  urls.resolve urls.urlpatterns ("buy_order/" +:+ str_of_int 42 +:+ "/")
  = Some (urls.buy_order_view, [("order_id"%string, 42)]).
Proof.
  destruct (paths_resolve_to_their_view 42) as (_ & _ & _ & H); [lia|].
  exact H.
Defined.


Lemma cancel_url_example :
  exists path,
    dict_get "cancel_url"
      (session_kwargs [buy_view_line_item mug]
         "http://shop.test/success?session_id={CHECKOUT_SESSION_ID}"
         "http://shop.test/item/1/")
    = Some (PStr (current_scheme_host request +:+ "/" +:+ path))
    /\ urls.resolve urls.urlpatterns path
       = Some (urls.item_view, [("item_id"%string, 1)]).
Proof.
  destruct (cancel_urls_lead_back numbering request 1 start) as [Hi _];
    [lia|].
  eapply Hi. vm_compute. left. reflexivity.
Defined.

Lemma pages_example :
  fst (item_view Example_both.settings request 1 start)
  = Ok (render "products/item_detail.html"
          [ ("item", CItem 1 mug);
            ("stripe_publishable_key", CStr "pk_test") ]%string)
  /\ exists msg,
       fst (order_view Example_both.settings request 7 start)
       = Raise (Http404 msg).
Proof.
  destruct (pages_only_read numbering Example_both.settings request 1 start)
    as (_ & _ & Hitem & _).
  destruct (pages_only_read numbering Example_both.settings request 7 start)
    as (_ & _ & _ & _ & _ & Horder & _).
  split; [by apply Hitem | by apply Horder].
Defined.

End More_examples.
